(** * LUFA/Common/CompilerSpecific.h: the compiler abstraction macros

    The header is a sequence of C preprocessor directives.  It is embedded
    here as the function it denotes: from the build environment (the macros
    that are predefined when the file is reached) to the macros the file
    defines, or to the fatal diagnostic of its [#error].  A [#if] becomes a
    Rocq [if], a [#define] an insertion in the macro table, and the
    directives are sequenced by passing the table along.

    Macro replacement lists are kept token by token as the file writes them,
    with the [#] and [##] operators, and one macro invocation is expanded by
    the substitution and pasting steps of the C preprocessor. *)

From Stdlib Require Import ZArith Ascii String.
From stdpp Require Import gmap strings list.

Local Open Scope string_scope.
Local Open Scope Z_scope.

(** ** Preprocessing tokens *)

Inductive token : Type :=
  | Ident (s : string)        (* identifier or keyword *)
  | PPNum (s : string)        (* preprocessing number, by its spelling *)
  | StrLit (s : string)       (* string literal, by its contents *)
  | Punct (s : string)        (* punctuator *)
  | Hash                      (* the [#] operator of a replacement list *)
  | HashHash                  (* the [##] operator of a replacement list *)
  | Placemarker.              (* stands for an empty argument next to [##] *)

#[global] Instance token_eq_dec : EqDecision token.
Proof. solve_decision. Defined.

(** A macro: object-like, or function-like with its named parameters,
    whether it ends in [...], and its replacement list. *)
Inductive macro : Type :=
  | ObjectLike (body : list token)
  | FunctionLike (params : list string) (variadic : bool) (body : list token).

#[global] Instance macro_eq_dec : EqDecision macro.
Proof. solve_decision. Defined.

Abbreviation macro_table := (gmap string macro).

(** ** The build environment

    Each predefined macro is recorded with the integer its replacement list
    evaluates to inside [#if].  [defined(X)] asks whether [X] is recorded; an
    identifier that is not a macro evaluates to 0, as the C standard has it.
    The file defines none of the names it tests after its include guard, so
    its conditions read the environment only. *)

Abbreviation build_env := (gmap string Z).

Definition defined (e : build_env) (name : string) : bool :=
  bool_decide (is_Some (e !! name)).

Definition value (e : build_env) (name : string) : Z :=
  default 0 (e !! name).

(** ** Directives: state passing over the macro table, with [#error] *)

Inductive outcome (A : Type) : Type :=
  | Done (a : A)
  | Fatal (diagnostic : string).
Arguments Done {A} a.
Arguments Fatal {A} diagnostic.

Definition directive : Type := macro_table -> outcome macro_table.

Definition skip : directive := fun t => Done t.

Definition seq (d1 d2 : directive) : directive :=
  fun t => match d1 t with
           | Done t' => d2 t'
           | Fatal m => Fatal m
           end.

Declare Scope directive_scope.
Delimit Scope directive_scope with dir.
Bind Scope directive_scope with directive.
Notation "d1 ;; d2" := (seq d1 d2)
  (at level 100, d2 at level 200, right associativity) : directive_scope.
Local Open Scope directive_scope.

(** [#define name(params) body]; a later definition replaces an earlier one. *)
Definition define (name : string) (params : list string) (variadic : bool)
    (body : list token) : directive :=
  fun t => Done (<[name := FunctionLike params variadic body]> t).

Definition define_object (name : string) (body : list token) : directive :=
  fun t => Done (<[name := ObjectLike body]> t).

(** [#error text] *)
Definition error (text : string) : directive := fun _ => Fatal text.

(** [#include <...>] of a header of the toolchain: it declares the
    compiler's intrinsic functions and leaves the macros of this file alone. *)
Definition include_system (header : string) : directive := skip.

(** ** The conditions of the file *)

(** line 64: [#if defined(__GNUC__) || defined(__DOXYGEN__)] *)
Definition gcc_branch (e : build_env) : bool :=
  defined e "__GNUC__" || defined e "__DOXYGEN__".

(** line 117: [#if defined(__ICCAVR32__) || defined(__DOXYGEN__)] *)
Definition iar_branch (e : build_env) : bool :=
  defined e "__ICCAVR32__" || defined e "__DOXYGEN__".

(** lines 89 and 122: [#if ((ARCH == ARCH_AVR) || (ARCH == ARCH_XMEGA))] *)
Definition arch_avr_or_xmega (e : build_env) : bool :=
  (value e "ARCH" =? value e "ARCH_AVR") || (value e "ARCH" =? value e "ARCH_XMEGA").

(** lines 91 and 124: [#elif (ARCH == ARCH_UC3)] *)
Definition arch_uc3 (e : build_env) : bool :=
  value e "ARCH" =? value e "ARCH_UC3".

(** ** The replacement lists, token by token *)

Definition no_text : string := EmptyString.

Definition call1 (f arg : string) : list token :=
  [Ident f; Punct "("; Ident arg; Punct ")"].

Definition call2 (f arg1 arg2 : string) : list token :=
  [Ident f; Punct "("; Ident arg1; Punct ","; Ident arg2; Punct ")"].

(** line 73 *)
Definition body_GCC_FORCE_POINTER_ACCESS : list token :=
  [Ident "__asm__"; Ident "__volatile__"; Punct "("; StrLit no_text;
   Punct ":"; StrLit "=b"; Punct "("; Ident "StructPtr"; Punct ")";
   Punct ":"; StrLit "0"; Punct "("; Ident "StructPtr"; Punct ")"; Punct ")"].

(** line 79 *)
Definition body_GCC_MEMORY_BARRIER : list token :=
  [Ident "__asm__"; Ident "__volatile__"; Punct "("; StrLit no_text;
   Punct ":"; Punct ":"; Punct ":"; StrLit "memory"; Punct ")"; Punct ";"].

(** line 87 *)
Definition body_GCC_IS_COMPILE_CONST : list token :=
  call1 "__builtin_constant_p" "x".

(** lines 90, 92, 123 and 125: [defined(prefix ## x ## __)] *)
Definition body_IS_PART_DEFINED (prefix : string) : list token :=
  [Ident "defined"; Punct "("; Ident prefix; HashHash; Ident "x"; HashHash;
   Ident "__"; Punct ")"].

(** line 95 *)
Definition body_GCC_ISR : list token :=
  [Ident "void"; Ident "Name"; Punct "("; Ident "void"; Punct ")";
   Ident "__attribute__"; Punct "("; Punct "("; Ident "__interrupt__";
   Punct ")"; Punct ")"; Ident "__VA_ARGS__"; Punct ";";
   Ident "void"; Ident "Name"; Punct "("; Ident "void"; Punct ")"].

(** lines 103 and 140: [prefix ## x] *)
Definition body_COMPILER_SPECIFIC (prefix : string) : list token :=
  [Ident prefix; HashHash; Ident "x"].

(** line 120 *)
Definition body_IAR_MEMORY_BARRIER : list token :=
  [Ident "__asm"; Punct "("; StrLit no_text; Punct ")"].

(** line 129 *)
Definition body_IAR_ISR_PRAGMA : list token :=
  [Ident "_Pragma"; Punct "("; Hash; Ident "__VA_ARGS__"; Punct ")"].

(** line 132 *)
Definition body_IAR_ISR : list token :=
  [Ident "__IAR_ISR_PRAGMA"; Punct "("; Ident "handler"; Punct "=";
   Ident "Group"; Punct ","; Ident "Level"; Punct ")";
   Ident "__interrupt"; Ident "void"; Ident "Name"; Punct "(";
   Ident "void"; Punct ")"].

(** ** The file *)

Definition direct_inclusion_diagnostic : string :=
  "Do not include this file directly. Include LUFA/Common/Common.h instead to gain this functionality.".

(** lines 64 to 115 *)
Definition gcc_section (e : build_env) : directive :=
  if gcc_branch e then
    define "GCC_FORCE_POINTER_ACCESS" ["StructPtr"] false body_GCC_FORCE_POINTER_ACCESS ;;
    define "GCC_MEMORY_BARRIER" [] false body_GCC_MEMORY_BARRIER ;;
    define "GCC_IS_COMPILE_CONST" ["x"] false body_GCC_IS_COMPILE_CONST ;;
    (if arch_avr_or_xmega e then
       define "GCC_IS_PART_DEFINED" ["x"] false (body_IS_PART_DEFINED "__AVR_")
     else if arch_uc3 e then
       define "GCC_IS_PART_DEFINED" ["x"] false (body_IS_PART_DEFINED "__AVR32_")
     else skip) ;;
    define "GCC_ISR" ["Name"] true body_GCC_ISR ;;
    define "GCC_READ_SYS_REGISTER" ["Reg"] false (call1 "__builtin_mfsr" "Reg") ;;
    define "GCC_WRITE_SYS_REGISTER" ["Reg"; "Val"] false (call2 "__builtin_mtsr" "Reg" "Val") ;;
    define "GCC_CLEAR_STATUS_FLAG" ["Bitmask"] false (call1 "__builtin_csrf" "Bitmask") ;;
    define "GCC_SET_STATUS_FLAG" ["Bitmask"] false (call1 "__builtin_ssrf" "Bitmask") ;;
    (if negb (defined e "__DOXYGEN__") then
       define "__COMPILER_SPECIFIC" ["x"] false (body_COMPILER_SPECIFIC "GCC_")
     else skip)
  else
    define "GCC_FORCE_POINTER_ACCESS" ["StructPtr"] false [] ;;
    define "GCC_MEMORY_BARRIER" [] false [] ;;
    define "GCC_IS_COMPILE_CONST" ["x"] false [PPNum "0"] ;;
    define "GCC_IS_PART_DEFINED" ["x"] false [PPNum "0"] ;;
    define "GCC_ISR" ["Name"] true [] ;;
    define "GCC_READ_SYS_REGISTER" ["Reg"] false [] ;;
    define "GCC_WRITE_SYS_REGISTER" ["Reg"; "Val"] false [] ;;
    define "GCC_CLEAR_STATUS_FLAG" ["Bitmask"] false [] ;;
    define "GCC_SET_STATUS_FLAG" ["Bitmask"] false [].

(** lines 117 to 149 *)
Definition iar_section (e : build_env) : directive :=
  if iar_branch e then
    include_system "intrinsics.h" ;;
    define "IAR_MEMORY_BARRIER" [] false body_IAR_MEMORY_BARRIER ;;
    (if arch_avr_or_xmega e then
       define "IAR_IS_PART_DEFINED" ["x"] false (body_IS_PART_DEFINED "__AT")
     else if arch_uc3 e then
       define "IAR_IS_PART_DEFINED" ["x"] false (body_IS_PART_DEFINED "__AT32")
     else skip) ;;
    (if negb (defined e "__DOXYGEN__") then
       define "__IAR_ISR_PRAGMA" [] true body_IAR_ISR_PRAGMA
     else skip) ;;
    define "IAR_ISR" ["Name"; "Group"; "Level"] false body_IAR_ISR ;;
    define "IAR_READ_SYS_REGISTER" ["Reg"] false (call1 "__get_system_register" "Reg") ;;
    define "IAR_WRITE_SYS_REGISTER" ["Reg"; "Val"] false (call2 "__set_system_register" "Reg" "Val") ;;
    define "IAR_CLEAR_STATUS_FLAG" ["Bitmask"] false (call1 "__clear_status_flag" "Bitmask") ;;
    define "IAR_SET_STATUS_FLAG" ["Bitmask"] false (call1 "__set_status_flag" "Bitmask") ;;
    (if negb (defined e "__DOXYGEN__") then
       define "__COMPILER_SPECIFIC" ["x"] false (body_COMPILER_SPECIFIC "IAR_")
     else skip)
  else
    define "IAR_IS_PART_DEFINED" ["x"] false [PPNum "0"] ;;
    define "IAR_ISR" ["Name"] true [] ;;
    define "IAR_READ_SYS_REGISTER" ["Reg"] false [] ;;
    define "IAR_WRITE_SYS_REGISTER" ["Reg"; "Val"] false [] ;;
    define "IAR_CLEAR_STATUS_FLAG" ["Bitmask"] false [] ;;
    define "IAR_SET_STATUS_FLAG" ["Bitmask"] false [].

(** lines 54 to 151: the include guard, the check of line 58, the two
    compiler sections. *)
Definition CompilerSpecific_h (e : build_env) : directive :=
  if negb (defined e "__LUFA_COMPILERSPEC_H__") then
    define_object "__LUFA_COMPILERSPEC_H__" [] ;;
    (if negb (defined e "__INCLUDE_FROM_COMMON_H") then
       error direct_inclusion_diagnostic
     else skip) ;;
    gcc_section e ;;
    iar_section e
  else skip.

(** The macros a translation unit gets from the file. *)
Definition preprocess (e : build_env) : outcome macro_table :=
  CompilerSpecific_h e ∅.

(** ** Expanding one macro invocation

    The arguments of an invocation are lists of source tokens ([Ident],
    [PPNum], [StrLit], [Punct]), taken as already expanded; [F()] is the
    invocation with the one empty argument [[[]]]. *)

Inductive expansion_error : Type :=
  | Undefined_macro (name : string)      (* no such macro: the name is left
                                            to the compiler as an undeclared symbol *)
  | Too_few_arguments (name : string) (required given : nat)
  | Too_many_arguments (name : string) (accepted given : nat)
  | Invalid_paste (name : string).

Inductive expansion : Type :=
  | Expanded (ts : list token)
  | Rejected (why : expansion_error).

Definition double_quote : ascii := "034"%char.
Definition backslash : ascii := "092"%char.

(** Inside a stringified string literal, each quote and backslash gets a
    backslash. *)
Fixpoint escape (s : string) : string :=
  match s with
  | EmptyString => EmptyString
  | String c r =>
      if bool_decide (c = double_quote) || bool_decide (c = backslash)
      then String backslash (String c (escape r))
      else String c (escape r)
  end.

Definition spelling (t : token) : string :=
  match t with
  | Ident s | PPNum s | Punct s => s
  | StrLit s => String double_quote (s ++ String double_quote EmptyString)
  | Hash => "#"
  | HashHash => "##"
  | Placemarker => EmptyString
  end.

Definition stringified (t : token) : string :=
  match t with
  | StrLit s => escape (spelling t)
  | _ => spelling t
  end.

Fixpoint spell_all (ts : list token) : string :=
  match ts with
  | [] => EmptyString
  | [t] => stringified t
  | t :: rest => stringified t ++ " " ++ spell_all rest
  end.

(** The [#] operator: the spelling of the argument as one string literal.
    The token lists do not record the white space of the source, which the
    preprocessor keeps (one space where the source has some, none where it
    has none): [spell_all] puts one space between any two tokens, so the
    contents of the string are those of the source written with single
    spaces throughout, and only the tokens in it are meaningful. *)
Definition stringify (arg : list token) : token := StrLit (spell_all arg).

Fixpoint join_commas (args : list (list token)) : list token :=
  match args with
  | [] => []
  | [a] => a
  | a :: rest => (a ++ Punct "," :: join_commas rest)%list
  end.

Definition ident_char (c : ascii) : bool :=
  let n := nat_of_ascii c in
  ((48 <=? n) && (n <=? 57) || (65 <=? n) && (n <=? 90)
   || (97 <=? n) && (n <=? 122) || (n =? 95))%nat.

Fixpoint ident_chars (s : string) : bool :=
  match s with
  | EmptyString => true
  | String c r => ident_char c && ident_chars r
  end.

(** The [##] operator on two tokens: the spellings are concatenated and must
    form one token.  An identifier takes identifier characters; a
    preprocessing number takes any identifier or number on its right. *)
Definition paste (l r : token) : option token :=
  match l, r with
  | Placemarker, t => Some t
  | t, Placemarker => Some t
  | Ident a, Ident b => Some (Ident (a ++ b))
  | Ident a, PPNum b => if ident_chars b then Some (Ident (a ++ b)) else None
  | PPNum a, Ident b => Some (PPNum (a ++ b))
  | PPNum a, PPNum b => Some (PPNum (a ++ b))
  | _, _ => None
  end.

Definition bindings : Type := list (string * list token).

Fixpoint binding (b : bindings) (p : string) : option (list token) :=
  match b with
  | [] => None
  | (q, a) :: rest => if bool_decide (p = q) then Some a else binding rest p
  end.

(** Parameters are replaced by their arguments, a parameter after [#] by the
    stringified argument; an empty argument leaves a placemarker. *)
Fixpoint substitute (b : bindings) (body : list token) : list token :=
  match body with
  | [] => []
  | Hash :: rest =>
      match rest with
      | Ident p :: rest' =>
          match binding b p with
          | Some a => stringify a :: substitute b rest'
          | None => Hash :: substitute b rest
          end
      | _ => Hash :: substitute b rest
      end
  | Ident p :: rest =>
      match binding b p with
      | Some [] => Placemarker :: substitute b rest
      | Some a => (a ++ substitute b rest)%list
      | None => Ident p :: substitute b rest
      end
  | t :: rest => t :: substitute b rest
  end.

(** Every [##] pastes the token built so far on its left with the token on
    its right, left to right. *)
Fixpoint paste_from (cur : token) (ts : list token) : option (list token) :=
  match ts with
  | [] => Some [cur]
  | HashHash :: more =>
      match more with
      | r :: rest =>
          match paste cur r with
          | Some c => paste_from c rest
          | None => None
          end
      | [] => None
      end
  | t :: rest =>
      match paste_from t rest with
      | Some out => Some (cur :: out)
      | None => None
      end
  end.

Definition paste_all (ts : list token) : option (list token) :=
  match ts with
  | [] => Some []
  | t :: rest => paste_from t rest
  end.

Definition drop_placemarkers (ts : list token) : list token :=
  filter (fun t => t ≠ Placemarker) ts.

(** Arguments against parameters.  A macro without parameters takes the
    one empty argument of [F()] as no argument; the arguments of [...] may
    be left out altogether, and are otherwise joined, with their commas,
    as [__VA_ARGS__]. *)
Definition bind_arguments (name : string) (params : list string)
    (variadic : bool) (args : list (list token)) : bindings + expansion_error :=
  let n := length params in
  let given := length args in
  if bool_decide (params = []) && negb variadic && bool_decide (args = [[]]) then
    inl []
  else if (given <? n)%nat then
    inr (Too_few_arguments name n given)
  else if (n <? given)%nat && negb variadic then
    inr (Too_many_arguments name n given)
  else
    inl (zip params (take n args)
         ++ (if variadic then [("__VA_ARGS__", join_commas (drop n args))] else []))%list.

Definition finish (name : string) (ts : list token) : expansion :=
  match paste_all ts with
  | Some out => Expanded (drop_placemarkers out)
  | None => Rejected (Invalid_paste name)
  end.

Definition expand (name : string) (m : macro) (args : list (list token)) : expansion :=
  match m with
  | ObjectLike body =>
      match finish name body with
      | Expanded out =>
          Expanded (out ++ Punct "(" :: join_commas args ++ [Punct ")"])%list
      | Rejected why => Rejected why
      end
  | FunctionLike params variadic body =>
      match bind_arguments name params variadic args with
      | inl b => finish name (substitute b body)
      | inr why => Rejected why
      end
  end.

(** [name(args)] in a translation unit whose macros are [t]. *)
Definition invoke (t : macro_table) (name : string) (args : list (list token)) : expansion :=
  match t !! name with
  | Some m => expand name m args
  | None => Rejected (Undefined_macro name)
  end.

(** ** Families, primitives and the facade *)

Inductive family : Type := GCC | IAR | Fallback.

#[global] Instance family_eq_dec : EqDecision family.
Proof. solve_decision. Defined.

(** A compiler family is active when its [#if] branch is taken; the
    fallback is what remains when neither is. *)
Definition active (e : build_env) (f : family) : bool :=
  match f with
  | GCC => gcc_branch e
  | IAR => iar_branch e
  | Fallback => negb (gcc_branch e) && negb (iar_branch e)
  end.

Definition active_families (e : build_env) : list family :=
  filter (fun f => active e f = true) [GCC; IAR; Fallback].

Inductive primitive : Type :=
  | IS_COMPILE_CONST | MEMORY_BARRIER | FORCE_POINTER_ACCESS | IS_PART_DEFINED
  | ISR | READ_SYS_REGISTER | WRITE_SYS_REGISTER | CLEAR_STATUS_FLAG
  | SET_STATUS_FLAG.

#[global] Instance primitive_eq_dec : EqDecision primitive.
Proof. solve_decision. Defined.

Definition primitive_name (p : primitive) : string :=
  match p with
  | IS_COMPILE_CONST => "IS_COMPILE_CONST"
  | MEMORY_BARRIER => "MEMORY_BARRIER"
  | FORCE_POINTER_ACCESS => "FORCE_POINTER_ACCESS"
  | IS_PART_DEFINED => "IS_PART_DEFINED"
  | ISR => "ISR"
  | READ_SYS_REGISTER => "READ_SYS_REGISTER"
  | WRITE_SYS_REGISTER => "WRITE_SYS_REGISTER"
  | CLEAR_STATUS_FLAG => "CLEAR_STATUS_FLAG"
  | SET_STATUS_FLAG => "SET_STATUS_FLAG"
  end.

Definition all_primitives : list primitive :=
  [IS_COMPILE_CONST; MEMORY_BARRIER; FORCE_POINTER_ACCESS; IS_PART_DEFINED;
   ISR; READ_SYS_REGISTER; WRITE_SYS_REGISTER; CLEAR_STATUS_FLAG;
   SET_STATUS_FLAG].

Definition gcc_name (p : primitive) : string := "GCC_" ++ primitive_name p.
Definition iar_name (p : primitive) : string := "IAR_" ++ primitive_name p.

(** The macro that [__COMPILER_SPECIFIC(p)] names, when the facade is
    defined and its expansion is one identifier. *)
Definition facade_target (t : macro_table) (p : primitive) : option string :=
  match invoke t "__COMPILER_SPECIFIC" [[Ident (primitive_name p)]] with
  | Expanded [Ident n] => Some n
  | _ => None
  end.

(** A reference to primitive [p] through the facade resolves when the facade
    is defined and the macro it names is. *)
Definition facade_resolves (t : macro_table) (p : primitive) : bool :=
  match facade_target t p with
  | Some n => bool_decide (is_Some (t !! n))
  | None => false
  end.

(** ** Build environments used as examples

    [ARCH_AVR], [ARCH_UC3] and [ARCH_XMEGA] are given the values 0, 1 and 2;
    the file that defines them is not part of this development, and the
    theorems below hold for any values. *)

Definition with_architecture (arch : Z) (e : build_env) : build_env :=
  <["ARCH" := arch]> (<["ARCH_AVR" := 0]> (<["ARCH_UC3" := 1]> (<["ARCH_XMEGA" := 2]> e))).

(** Common.h defines [__INCLUDE_FROM_COMMON_H] before it includes the file. *)
Definition from_common : build_env := {[ "__INCLUDE_FROM_COMMON_H" := 1 ]}.

Definition unknown_compiler_env : build_env := with_architecture 0 from_common.
Definition gcc_env (arch : Z) : build_env :=
  with_architecture arch (<["__GNUC__" := 4]> from_common).
Definition iar_env (arch : Z) : build_env :=
  with_architecture arch (<["__ICCAVR32__" := 1]> from_common).
Definition two_compilers_env : build_env :=
  with_architecture 1 (<["__GNUC__" := 4]> (<["__ICCAVR32__" := 1]> from_common)).
Definition doxygen_env : build_env :=
  with_architecture 0 (<["__DOXYGEN__" := 1]> from_common).

(** The file is read for the first time: its include guard (line 54) is
    not defined yet. *)
Definition first_inclusion (e : build_env) : Prop :=
  defined e "__LUFA_COMPILERSPEC_H__" = false.

(** The file is reached from Common.h, which defines the name line 58
    asks for. *)
Definition through_common (e : build_env) : Prop :=
  defined e "__INCLUDE_FROM_COMMON_H" = true.

(** [ARCH] is one of the three values the part query is written for. *)
Definition arch_recognised (e : build_env) : bool :=
  arch_avr_or_xmega e || arch_uc3 e.

(** Lines 97 and 134, and lines 111 and 145. *)
Definition real_GCC_READ_SYS_REGISTER : macro :=
  FunctionLike ["Reg"] false (call1 "__builtin_mfsr" "Reg").
Definition real_IAR_READ_SYS_REGISTER : macro :=
  FunctionLike ["Reg"] false (call1 "__get_system_register" "Reg").
Definition stub_READ_SYS_REGISTER : macro := FunctionLike ["Reg"] false [].

(** The compiler identity is ambiguous when both compilers are announced,
    or when the file is read for its documentation. *)
Definition ambiguous (e : build_env) : bool :=
  defined e "__DOXYGEN__" || defined e "__GNUC__" && defined e "__ICCAVR32__".

(** The primitives that have an [IAR_] form in lines 117 to 141. *)
Definition iar_implemented : list primitive :=
  [MEMORY_BARRIER; IS_PART_DEFINED; ISR; READ_SYS_REGISTER; WRITE_SYS_REGISTER;
   CLEAR_STATUS_FLAG; SET_STATUS_FLAG].

(** The table has a macro of that name. *)
Definition defines (t : macro_table) (name : string) : bool :=
  bool_decide (is_Some (t !! name)).

(** The tokens of a source text, as opposed to the operators of a
    replacement list. *)
Definition source_token (t : token) : bool :=
  match t with
  | Ident _ | PPNum _ | StrLit _ | Punct _ => true
  | _ => false
  end.

(** What [GCC_ISR(name)] leaves: the prototype with the interrupt attribute,
    then the head of the definition. *)
Definition gcc_handler (name : string) : list token :=
  [Ident "void"; Ident name; Punct "("; Ident "void"; Punct ")";
   Ident "__attribute__"; Punct "("; Punct "("; Ident "__interrupt__";
   Punct ")"; Punct ")"; Punct ";";
   Ident "void"; Ident name; Punct "("; Ident "void"; Punct ")"].

Definition iar_handler (name : string) (group level : token) : list token :=
  [Ident "__IAR_ISR_PRAGMA"; Punct "("; Ident "handler"; Punct "=";
   group; Punct ","; level; Punct ")";
   Ident "__interrupt"; Ident "void"; Ident name; Punct "(";
   Ident "void"; Punct ")"].

(** A part name is one identifier, or one number made of identifier
    characters (as in [90USB1287]). *)
Definition part_name_token (t : token) : bool :=
  match t with
  | Ident _ => true
  | PPNum s => ident_chars s
  | _ => false
  end.

Definition token_text (t : token) : string :=
  match t with
  | Ident s | PPNum s | StrLit s | Punct s => s
  | _ => EmptyString
  end.

(** [defined(symbol)], what a part query expands to. *)
Definition defined_symbol (symbol : string) : list token :=
  [Ident "defined"; Punct "("; Ident symbol; Punct ")"].

Definition digit_value (c : ascii) : option Z :=
  let n := nat_of_ascii c in
  if ((48 <=? n) && (n <=? 57))%nat then Some (Z.of_nat (n - 48)) else None.

Fixpoint decimal_from (acc : Z) (s : string) : option Z :=
  match s with
  | EmptyString => Some acc
  | String c r =>
      match digit_value c with
      | Some d => decimal_from (10 * acc + d) r
      | None => None
      end
  end.

(** The value of a decimal integer constant. *)
Definition decimal_value (s : string) : option Z :=
  match s with
  | EmptyString => None
  | _ => decimal_from 0 s
  end.

(** A literal: a number or a string. *)
Definition is_literal (t : token) : bool :=
  match t with
  | PPNum _ | StrLit _ => true
  | _ => false
  end.

(** The truth value of what the constant-fold query expands to, given the
    compiler's [__builtin_constant_p] by the tokens of its argument: an
    integer constant is true when it is not 0, a call of the builtin is the
    builtin's answer on its argument. *)
Definition query_value (builtin_constant_p : list token -> bool)
    (ts : list token) : option bool :=
  match ts with
  | [PPNum s] =>
      match decimal_value s with
      | Some z => Some (negb (z =? 0))
      | None => None
      end
  | f :: opening :: rest =>
      if bool_decide (f = Ident "__builtin_constant_p")
         && bool_decide (opening = Punct "(")
      then match reverse rest with
           | closing :: argument =>
               if bool_decide (closing = Punct ")")
               then Some (builtin_constant_p (reverse argument))
               else None
           | [] => None
           end
      else None
  | _ => None
  end.

(** A compiler that takes literals, and nothing else, for constants. *)
Definition literals_only (argument : list token) : bool :=
  match argument with
  | [t] => is_literal t
  | _ => false
  end.

(** ** Vocabulary of the further properties *)

(** The build environment once the macros of [t] are defined too.  A name
    the file defines counts as defined from then on; inside [#if] the name
    of a function-like macro that is not invoked evaluates to 0. *)
Definition env_after (e : build_env) (t : macro_table) : build_env :=
  e ∪ ((fun _ : macro => 0) <$> t).

(** The parameter list of a macro, and whether it ends in [...]. *)
Definition signature (m : macro) : option (list string * bool) :=
  match m with
  | ObjectLike _ => None
  | FunctionLike params variadic _ => Some (params, variadic)
  end.

Definition replacement (m : macro) : list token :=
  match m with
  | ObjectLike body => body
  | FunctionLike _ _ body => body
  end.

(** A boolean test on every entry of a macro table. *)
Definition every_entry (test : string -> macro -> bool) (t : macro_table) : bool :=
  forallb (fun entry => test entry.1 entry.2) (map_to_list t).

(** The names that belong to the file: the two families' and the reserved
    ones with two leading underscores. *)
Definition owned_name (name : string) : bool :=
  String.prefix "GCC_" name || String.prefix "IAR_" name || String.prefix "__" name.

Definition include_guard : string := "__LUFA_COMPILERSPEC_H__".

(** A function-like macro that leaves nothing, or the constant 0. *)
Definition stub_like (m : macro) : bool :=
  match m with
  | FunctionLike _ _ body => bool_decide (body = []) || bool_decide (body = [PPNum "0"])
  | ObjectLike _ => false
  end.

(** The macros of the build that announces both compilers, where every
    name the file can define is defined; used to compare parameter lists. *)
Definition reference_table : macro_table :=
  match preprocess two_compilers_env with
  | Done t => t
  | Fatal _ => ∅
  end.

(** A list of source tokens. *)
Definition plain (ts : list token) : bool := forallb source_token ts.

(** [f(arg, ..., arg)] *)
Definition intrinsic_call (f : string) (args : list (list token)) : list token :=
  (Ident f :: Punct "(" :: join_commas args ++ [Punct ")"])%list.

(** The empty [asm] statement of line 73, with the pointer as its output
    operand (constraint "=b") and as its input operand (constraint "0"). *)
Definition pointer_access_asm (ptr : list token) : list token :=
  ([Ident "__asm__"; Ident "__volatile__"; Punct "("; StrLit no_text;
    Punct ":"; StrLit "=b"; Punct "("] ++ ptr
   ++ [Punct ")"; Punct ":"; StrLit "0"; Punct "("] ++ ptr
   ++ [Punct ")"; Punct ")"])%list.

(** What [GCC_ISR(name, attributes)] leaves: the prototype with the
    interrupt attribute followed by the attributes given, then the head of
    the definition. *)
Definition gcc_handler_with (name : string) (attributes : list token) : list token :=
  ([Ident "void"; Ident name; Punct "("; Ident "void"; Punct ")";
    Ident "__attribute__"; Punct "("; Punct "("; Ident "__interrupt__";
    Punct ")"; Punct ")"] ++ attributes
   ++ [Punct ";"; Ident "void"; Ident name; Punct "("; Ident "void"; Punct ")"])%list.

(** What the [#else] branches leave of a primitive (lines 106 to 114 and
    143 to 148): the constant 0 for the two queries, nothing for the rest. *)
Definition stub_replacement (p : primitive) : list token :=
  match p with
  | IS_COMPILE_CONST | IS_PART_DEFINED => [PPNum "0"]
  | _ => []
  end.

(** The primitives that have an [IAR_] form in lines 143 to 148. *)
Definition iar_stubbed : list primitive :=
  [IS_PART_DEFINED; ISR; READ_SYS_REGISTER; WRITE_SYS_REGISTER;
   CLEAR_STATUS_FLAG; SET_STATUS_FLAG].

(** * Properties *)

(** ** Reading the file *)

Lemma preprocess_body (e : build_env) :
  first_inclusion e -> through_common e ->
  preprocess e
  = (gcc_section e ;; iar_section e) {[ "__LUFA_COMPILERSPEC_H__" := ObjectLike [] ]}.
Proof.
  unfold first_inclusion, through_common, preprocess, CompilerSpecific_h.
  intros -> ->. reflexivity.
Qed.

(** An include-guarded second reading of the file contributes nothing. *)
Lemma preprocess_guarded (e : build_env) :
  defined e "__LUFA_COMPILERSPEC_H__" = true -> preprocess e = Done ∅.
Proof.
  unfold preprocess, CompilerSpecific_h. intros ->. reflexivity.
Qed.

(** Case analysis on the five conditions the two compiler sections test. *)
Ltac split_conditions e :=
  unfold active, arch_recognised, gcc_section, iar_section, gcc_branch, iar_branch in *;
  destruct (defined e "__GNUC__") eqn:Hgnuc;
  destruct (defined e "__DOXYGEN__") eqn:Hdoxygen;
  destruct (defined e "__ICCAVR32__") eqn:Hicc;
  destruct (arch_avr_or_xmega e) eqn:Havr;
  destruct (arch_uc3 e) eqn:Huc3;
  simpl in *.

Ltac read_file e Hfirst Hcommon :=
  rewrite (preprocess_body e Hfirst Hcommon);
  split_conditions e;
  try discriminate.

Lemma string_not_two_longer (s : string) (c1 c2 : ascii) :
  s <> String c1 (String c2 s).
Proof.
  intros H. apply (f_equal String.length) in H. simpl in H. lia.
Qed.

(** ** The inclusion check (lines 54 to 60) *)

(** C3. On the first reading of the file (its include guard not yet
    defined), a build environment without [__INCLUDE_FROM_COMMON_H] stops
    at the [#error] of line 59 with its diagnostic, which is not empty; a
    build environment with [__INCLUDE_FROM_COMMON_H], as Common.h sets it
    up, never meets an error. *)
Theorem direct_inclusion_rejected (e : build_env) (Hfirst : first_inclusion e) :
  (defined e "__INCLUDE_FROM_COMMON_H" = false ->
     preprocess e = Fatal direct_inclusion_diagnostic)
  /\ (defined e "__INCLUDE_FROM_COMMON_H" = true ->
        exists t, preprocess e = Done t)
  /\ direct_inclusion_diagnostic <> EmptyString.
Proof.
  repeat split.
  - intros Hdirect. unfold preprocess, CompilerSpecific_h.
    rewrite Hfirst, Hdirect. reflexivity.
  - intros Hcommon. rewrite (preprocess_body e Hfirst Hcommon).
    split_conditions e; eexists; reflexivity.
  - discriminate.
Qed.

Lemma direct_inclusion_rejected_witness :
  preprocess ∅ = Fatal direct_inclusion_diagnostic
  /\ exists t, preprocess (gcc_env 1) = Done t.
Proof.
  split.
  - apply (direct_inclusion_rejected ∅); reflexivity.
  - apply (direct_inclusion_rejected (gcc_env 1)); reflexivity.
Defined.

(** ** Which family is active (lines 64 and 117) *)

(** The branch taken shows in the table: a family is active exactly when
    the file defines that family's register read by its intrinsic, and the
    fallback exactly when both register reads are the empty stubs. *)
Lemma active_in_table (e : build_env) :
  first_inclusion e -> through_common e ->
  exists t, preprocess e = Done t
  /\ active e GCC
     = bool_decide (t !! "GCC_READ_SYS_REGISTER" = Some real_GCC_READ_SYS_REGISTER)
  /\ active e IAR
     = bool_decide (t !! "IAR_READ_SYS_REGISTER" = Some real_IAR_READ_SYS_REGISTER)
  /\ active e Fallback
     = bool_decide (t !! "GCC_READ_SYS_REGISTER" = Some stub_READ_SYS_REGISTER)
       && bool_decide (t !! "IAR_READ_SYS_REGISTER" = Some stub_READ_SYS_REGISTER).
Proof.
  intros Hfirst Hcommon.
  read_file e Hfirst Hcommon;
    (eexists; split; [reflexivity|]); split_and!; reflexivity.
Qed.

(** C2, as stated, fails: with both [__GNUC__] and [__ICCAVR32__] defined
    the conditions of lines 64 and 117 both hold, so the GCC and the IAR
    definitions are both made; the same happens under [__DOXYGEN__]. *)
Lemma two_families_active :
  active_families two_compilers_env = [GCC; IAR]
  /\ active_families doxygen_env = [GCC; IAR]
  /\ (exists t, preprocess two_compilers_env = Done t
        /\ t !! "GCC_READ_SYS_REGISTER" = Some real_GCC_READ_SYS_REGISTER
        /\ t !! "IAR_READ_SYS_REGISTER" = Some real_IAR_READ_SYS_REGISTER).
Proof.
  split; [reflexivity|]. split; [reflexivity|].
  eexists. split; [reflexivity|]. split; reflexivity.
Qed.

(** C2, amended. Some family is always active, and the fallback is active
    exactly when none of [__GNUC__], [__ICCAVR32__] and [__DOXYGEN__] is
    defined, and then alone.  Exactly one family is active unless
    [__DOXYGEN__] is defined or [__GNUC__] and [__ICCAVR32__] both are; in
    that case the GCC and the IAR family are active together. *)
Theorem family_selection (e : build_env) :
  active_families e <> []
  /\ (active e Fallback = true <->
        defined e "__GNUC__" = false /\ defined e "__ICCAVR32__" = false
        /\ defined e "__DOXYGEN__" = false)
  /\ (active e Fallback = true -> active_families e = [Fallback])
  /\ (ambiguous e = false -> exists f, active_families e = [f])
  /\ (ambiguous e = true -> active_families e = [GCC; IAR]).
Proof.
  unfold active_families, ambiguous.
  split_conditions e; vm_compute; repeat split;
    try discriminate; try reflexivity; intros; destruct_and?;
    try discriminate; eauto.
Qed.

(** ** Which primitives are defined, and the facade (lines 103 and 140) *)

(** C1, as stated, fails in three ways.  Without a recognised compiler the
    file never defines [__COMPILER_SPECIFIC], so no primitive resolves
    through it; under IAR the facade names [IAR_IS_COMPILE_CONST] and
    [IAR_FORCE_POINTER_ACCESS], which no line of the file defines; under GCC
    with an [ARCH] outside the three the file compares it with,
    [GCC_IS_PART_DEFINED] is not defined. *)
Lemma facade_unresolved :
  (exists t, preprocess unknown_compiler_env = Done t
     /\ active_families unknown_compiler_env = [Fallback]
     /\ t !! "__COMPILER_SPECIFIC" = None
     /\ map (facade_resolves t) all_primitives = map (fun _ => false) all_primitives)
  /\ (exists t, preprocess (iar_env 1) = Done t
        /\ active_families (iar_env 1) = [IAR]
        /\ facade_target t IS_COMPILE_CONST = Some "IAR_IS_COMPILE_CONST"
        /\ t !! "IAR_IS_COMPILE_CONST" = None
        /\ facade_target t FORCE_POINTER_ACCESS = Some "IAR_FORCE_POINTER_ACCESS"
        /\ t !! "IAR_FORCE_POINTER_ACCESS" = None)
  /\ (exists t, preprocess (gcc_env 7) = Done t
        /\ active_families (gcc_env 7) = [GCC]
        /\ facade_target t IS_PART_DEFINED = Some "GCC_IS_PART_DEFINED"
        /\ t !! "GCC_IS_PART_DEFINED" = None).
Proof.
  repeat split; eexists; (split; [reflexivity|]); repeat split; reflexivity.
Qed.

(** An invocation of a macro whose replacement list is empty, or the
    constant 0, leaves that replacement list whatever the arguments. *)
Lemma invoke_constant (t : macro_table) (name : string) (params : list string)
    (variadic : bool) (body : list token) (args : list (list token))
    (ts : list token) :
  t !! name = Some (FunctionLike params variadic body) ->
  body = [] \/ body = [PPNum "0"] ->
  invoke t name args = Expanded ts -> ts = body.
Proof.
  intros Hm Hbody. unfold invoke. rewrite Hm. unfold expand.
  destruct (bind_arguments name params variadic args) as [b|why]; [|discriminate].
  destruct Hbody as [-> | ->]; intros [= <-]; reflexivity.
Qed.

(** C1, amended. In every build that reads the file through Common.h:
    the [GCC_] form of every primitive but the part query is defined, and
    that of the part query too when the GCC family is not active or [ARCH]
    is recognised; when the GCC family is not active all nine [GCC_] forms
    have the replacement list of a stub, empty, or 0 for the two queries,
    and every accepted invocation leaves just that; when the IAR family is
    active the [IAR_] form of the seven primitives it implements is
    defined, the part query again under a recognised [ARCH]; when the IAR
    family is not active the six [IAR_] forms of lines 143 to 148 are
    stubs in the same way, and [IAR_MEMORY_BARRIER], defined exactly under
    the IAR family, has no stub; the file has no [IAR_] constant-fold
    query or pointer-indirection hint at all; [__COMPILER_SPECIFIC] is
    defined exactly when [__GNUC__] or [__ICCAVR32__] is defined and
    [__DOXYGEN__] is not, hence never under the fallback, and then names
    the [IAR_] form when [__ICCAVR32__] is defined and the [GCC_] form
    otherwise. *)
Theorem primitive_coverage (e : build_env)
    (Hfirst : first_inclusion e) (Hcommon : through_common e) :
  exists t, preprocess e = Done t
  /\ (forall p, p <> IS_PART_DEFINED -> defines t (gcc_name p) = true)
  /\ (active e GCC = false \/ arch_recognised e = true ->
        defines t (gcc_name IS_PART_DEFINED) = true)
  /\ (active e IAR = true ->
        forall p, p ∈ iar_implemented ->
          p <> IS_PART_DEFINED \/ arch_recognised e = true ->
          defines t (iar_name p) = true)
  /\ defines t (iar_name IS_COMPILE_CONST) = false
  /\ defines t (iar_name FORCE_POINTER_ACCESS) = false
  /\ defines t "__COMPILER_SPECIFIC"
     = (defined e "__GNUC__" || defined e "__ICCAVR32__") && negb (defined e "__DOXYGEN__")
  /\ (active e Fallback = true -> defines t "__COMPILER_SPECIFIC" = false)
  /\ (defines t "__COMPILER_SPECIFIC" = true ->
        forall p, facade_target t p
                  = Some (if defined e "__ICCAVR32__" then iar_name p else gcc_name p))
  /\ (active e GCC = false ->
        forall p,
          (exists m, t !! gcc_name p = Some m
             /\ signature m <> None /\ replacement m = stub_replacement p)
          /\ (forall args ts,
                invoke t (gcc_name p) args = Expanded ts -> ts = stub_replacement p))
  /\ (active e IAR = false ->
        forall p, p ∈ iar_stubbed ->
          (exists m, t !! iar_name p = Some m
             /\ signature m <> None /\ replacement m = stub_replacement p)
          /\ (forall args ts,
                invoke t (iar_name p) args = Expanded ts -> ts = stub_replacement p))
  /\ defines t (iar_name MEMORY_BARRIER) = active e IAR.
Proof.
  read_file e Hfirst Hcommon;
    (eexists; split; [reflexivity|]);
    (split_and!;
    [ intros p Hp; destruct p;
        first [ reflexivity | exfalso; apply Hp; reflexivity ]
    | intros [Hd|Hd]; first [ discriminate Hd | reflexivity ]
    | intros Ha p Hp Hq;
        first [ discriminate Ha
              | destruct p;
                first [ reflexivity
                      | apply (bool_decide_eq_true_2 _) in Hp; discriminate Hp
                      | destruct Hq as [Hq|Hq];
                        [ exfalso; apply Hq; reflexivity | discriminate Hq ] ] ]
    | reflexivity
    | reflexivity
    | reflexivity
    | intros Hd; first [ discriminate Hd | reflexivity ]
    | intros Hd p;
        first [ vm_compute in Hd; discriminate Hd | destruct p; reflexivity ]
    | intros Ha;
        first [ discriminate Ha
              | intros p; destruct p;
                (split;
                 [ eexists; split; [reflexivity|]; split; [discriminate|reflexivity]
                 | intros args ts Hinvoke;
                   refine (invoke_constant _ _ _ _ _ _ _ _ _ Hinvoke);
                   [ reflexivity | first [ left; reflexivity | right; reflexivity ] ] ]) ]
    | intros Ha;
        first [ discriminate Ha
              | intros p Hp; destruct p;
                first [ apply (bool_decide_eq_true_2 _) in Hp; discriminate Hp
                      | split;
                        [ eexists; split; [reflexivity|]; split; [discriminate|reflexivity]
                        | intros args ts Hinvoke;
                          refine (invoke_constant _ _ _ _ _ _ _ _ _ Hinvoke);
                          [ reflexivity
                          | first [ left; reflexivity | right; reflexivity ] ] ] ] ]
    | reflexivity ]).
Qed.

Lemma primitive_coverage_witness :
  first_inclusion (gcc_env 1) /\ through_common (gcc_env 1)
  /\ exists t, preprocess (gcc_env 1) = Done t
       /\ defines t "__COMPILER_SPECIFIC" = true
       /\ facade_target t ISR = Some "GCC_ISR"
       /\ defines t "GCC_ISR" = true
       /\ (forall args ts, invoke t "IAR_IS_PART_DEFINED" args = Expanded ts ->
             ts = [PPNum "0"])
       /\ defines t "IAR_MEMORY_BARRIER" = false.
Proof.
  split; [reflexivity|]. split; [reflexivity|].
  destruct (primitive_coverage (gcc_env 1))
    as (t & Ht & Hgcc & _ & _ & _ & _ & Hf & _ & Hto & _ & Hiar & Hbarrier).
  - reflexivity.
  - reflexivity.
  - exists t. split; [exact Ht|]. split; [rewrite Hf; reflexivity|].
    split; [apply Hto; rewrite Hf; reflexivity|].
    split; [apply (Hgcc ISR); discriminate|].
    split; [|exact Hbarrier].
    apply (Hiar eq_refl IS_PART_DEFINED). apply (bool_decide_eq_true_1 _). reflexivity.
Defined.

(** ** The part query without a recognised architecture (lines 89 to 93
    and 122 to 126) *)



(** ** Register access without a recognised compiler (lines 111, 112, 145
    and 146) *)

(** C7. Under the fallback the file is read without any diagnostic, and
    the register read and the register write, in their [GCC_] and their
    [IAR_] form, expand to no token at all, whatever the register and the
    value: a read leaves no expression and a write no statement. *)
Theorem fallback_register_access (e : build_env)
    (Hfirst : first_inclusion e) (Hcommon : through_common e)
    (Hfallback : active e Fallback = true) :
  exists t, preprocess e = Done t
  /\ forall reg val : list token,
       invoke t "GCC_READ_SYS_REGISTER" [reg] = Expanded []
       /\ invoke t "GCC_WRITE_SYS_REGISTER" [reg; val] = Expanded []
       /\ invoke t "IAR_READ_SYS_REGISTER" [reg] = Expanded []
       /\ invoke t "IAR_WRITE_SYS_REGISTER" [reg; val] = Expanded [].
Proof.
  read_file e Hfirst Hcommon;
    (eexists; split; [reflexivity|]); intros reg val; split_and!; reflexivity.
Qed.

Lemma fallback_register_access_witness :
  active unknown_compiler_env Fallback = true
  /\ exists t, preprocess unknown_compiler_env = Done t
       /\ invoke t "GCC_READ_SYS_REGISTER" [[Ident "AVR32_COUNT"]] = Expanded []
       /\ invoke t "IAR_WRITE_SYS_REGISTER" [[Ident "AVR32_COMPARE"]; [PPNum "100"]]
          = Expanded [].
Proof.
  split; [reflexivity|].
  destruct (fallback_register_access unknown_compiler_env) as (t & Ht & Hrw);
    try reflexivity.
  exists t. split; [exact Ht|].
  split; [apply (Hrw [Ident "AVR32_COUNT"] [])|].
  apply (Hrw [Ident "AVR32_COMPARE"] [PPNum "100"]).
Defined.

(** ** Interrupt handlers (lines 95 and 129 to 132) *)

(** C5. With the IAR family active, [IAR_ISR] has the three parameters
    Name, Group and Level: an invocation with fewer arguments, so with the
    group and level pair or one of the two left out, is rejected for its
    missing arguments, and one with all three expands.  With the GCC family
    active, [GCC_ISR] with the handler's name and no attribute expands to
    the handler's declaration, with or without the comma of the empty
    attribute list. *)
Theorem isr_declaration (e : build_env)
    (Hfirst : first_inclusion e) (Hcommon : through_common e) :
  exists t, preprocess e = Done t
  /\ (active e IAR = true ->
        (forall args, (length args < 3)%nat ->
           invoke t "IAR_ISR" args
           = Rejected (Too_few_arguments "IAR_ISR" 3 (length args)))
        /\ (forall name group level,
              source_token group = true -> source_token level = true ->
              invoke t "IAR_ISR" [[Ident name]; [group]; [level]]
              = Expanded (iar_handler name group level)))
  /\ (active e GCC = true ->
        forall name,
          invoke t "GCC_ISR" [[Ident name]] = Expanded (gcc_handler name)
          /\ invoke t "GCC_ISR" [[Ident name]; []] = Expanded (gcc_handler name)).
Proof.
  read_file e Hfirst Hcommon;
    (eexists; split; [reflexivity|]); split_and!;
    intros Hactive; try discriminate Hactive; split_and?.
  all: try (intros name; split; reflexivity).
  all: try (intros [|a [|b [|c args]]] Hlen; simpl in Hlen;
            first [ reflexivity | lia ]).
  all: intros name [] [] Hgroup Hlevel; try discriminate; reflexivity.
Qed.

Lemma isr_declaration_witness :
  (exists t, preprocess (iar_env 1) = Done t
     /\ invoke t "IAR_ISR" [[Ident "USB_GEN_vect"]]
        = Rejected (Too_few_arguments "IAR_ISR" 3 1))
  /\ (exists t, preprocess (gcc_env 1) = Done t
        /\ invoke t "GCC_ISR" [[Ident "USB_GEN_vect"]]
           = Expanded (gcc_handler "USB_GEN_vect")).
Proof.
  split.
  - destruct (isr_declaration (iar_env 1)) as (t & Ht & Hiar & _);
      try reflexivity.
    exists t. split; [exact Ht|].
    destruct Hiar as [Hfew _]; [reflexivity|].
    apply (Hfew [[Ident "USB_GEN_vect"]]). simpl. lia.
  - destruct (isr_declaration (gcc_env 1)) as (t & Ht & _ & Hgcc);
      try reflexivity.
    exists t. split; [exact Ht|]. apply Hgcc. reflexivity.
Defined.

(** ** The part query and the architecture (lines 89 to 93 and 122 to 126) *)

Lemma invoke_lookup (t : macro_table) (name : string) (m : macro)
    (args : list (list token)) :
  t !! name = Some m -> invoke t name args = expand name m args.
Proof. unfold invoke. intros ->. reflexivity. Qed.

Lemma expand_part_query (name prefix : string) (pn : token) :
  prefix <> "x" ->
  part_name_token pn = true ->
  expand name (FunctionLike ["x"] false (body_IS_PART_DEFINED prefix)) [[pn]]
  = Expanded (defined_symbol ((prefix ++ token_text pn) ++ "__")).
Proof.
  intros Hprefix Hpn.
  unfold expand, body_IS_PART_DEFINED, bind_arguments, finish. simpl.
  rewrite (bool_decide_eq_false_2 _ Hprefix).
  destruct pn as [s|s|s|s| | |]; try discriminate Hpn.
  - reflexivity.
  - simpl in Hpn |- *. rewrite Hpn. reflexivity.
Qed.

(** The replacement list the file gives the part query of each family. *)
Lemma part_query_definition (e : build_env) :
  first_inclusion e -> through_common e ->
  exists t, preprocess e = Done t
  /\ (active e GCC = true -> arch_avr_or_xmega e = true ->
        t !! "GCC_IS_PART_DEFINED"
        = Some (FunctionLike ["x"] false (body_IS_PART_DEFINED "__AVR_")))
  /\ (active e GCC = true -> arch_avr_or_xmega e = false -> arch_uc3 e = true ->
        t !! "GCC_IS_PART_DEFINED"
        = Some (FunctionLike ["x"] false (body_IS_PART_DEFINED "__AVR32_")))
  /\ (active e IAR = true -> arch_avr_or_xmega e = true ->
        t !! "IAR_IS_PART_DEFINED"
        = Some (FunctionLike ["x"] false (body_IS_PART_DEFINED "__AT")))
  /\ (active e IAR = true -> arch_avr_or_xmega e = false -> arch_uc3 e = true ->
        t !! "IAR_IS_PART_DEFINED"
        = Some (FunctionLike ["x"] false (body_IS_PART_DEFINED "__AT32"))).
Proof.
  intros Hfirst Hcommon.
  read_file e Hfirst Hcommon;
    (eexists; split; [reflexivity|]); split_and!; intros;
    first [ discriminate | reflexivity ].
Qed.

Lemma avr_and_avr32_differ (x : string) :
  ("__AVR_" ++ x) ++ "__" <> ("__AVR32_" ++ x) ++ "__".
Proof. simpl. intros H. discriminate H. Qed.

Lemma at_and_at32_differ (x : string) :
  ("__AT" ++ x) ++ "__" <> ("__AT32" ++ x) ++ "__".
Proof.
  simpl. intros H. injection H as H.
  exact (string_not_two_longer _ _ _ H).
Qed.

(** C6, as stated, fails: [ARCH_AVR] and [ARCH_XMEGA] are two different
    recognised architectures, and line 89 (line 122 for IAR) gives both the
    same convention, so the same part name expands to the same symbol. *)
Lemma avr_and_xmega_share_names :
  value (gcc_env 0) "ARCH" = value (gcc_env 0) "ARCH_AVR"
  /\ value (gcc_env 2) "ARCH" = value (gcc_env 2) "ARCH_XMEGA"
  /\ value (gcc_env 0) "ARCH" <> value (gcc_env 2) "ARCH"
  /\ exists t0 t2, preprocess (gcc_env 0) = Done t0
       /\ preprocess (gcc_env 2) = Done t2
       /\ invoke t0 "GCC_IS_PART_DEFINED" [[Ident "ATxmega128A1U"]]
          = Expanded (defined_symbol "__AVR_ATxmega128A1U__")
       /\ invoke t2 "GCC_IS_PART_DEFINED" [[Ident "ATxmega128A1U"]]
          = Expanded (defined_symbol "__AVR_ATxmega128A1U__").
Proof.
  split; [reflexivity|]. split; [reflexivity|]. split; [vm_compute; discriminate|].
  eexists. eexists. split; [reflexivity|]. split; [reflexivity|].
  split; reflexivity.
Qed.

(** C6, amended. Take two builds of the same compiler family, one whose
    [ARCH] is [ARCH_AVR] or [ARCH_XMEGA] and one whose [ARCH] is [ARCH_UC3]
    and neither of the other two.  For every part name the part query
    expands in the first to [defined(__AVR_name__)] and in the second to
    [defined(__AVR32_name__)] under GCC, to [defined(__ATname__)] and
    [defined(__AT32name__)] under IAR, and the two symbols differ. *)
Theorem part_query_conventions (e1 e2 : build_env)
    (Hfirst1 : first_inclusion e1) (Hcommon1 : through_common e1)
    (Hfirst2 : first_inclusion e2) (Hcommon2 : through_common e2)
    (Harch1 : arch_avr_or_xmega e1 = true)
    (Harch2 : arch_avr_or_xmega e2 = false) (Huc3 : arch_uc3 e2 = true) :
  exists t1 t2, preprocess e1 = Done t1 /\ preprocess e2 = Done t2
  /\ forall pn, part_name_token pn = true ->
       (active e1 GCC = true -> active e2 GCC = true ->
          invoke t1 "GCC_IS_PART_DEFINED" [[pn]]
          = Expanded (defined_symbol (("__AVR_" ++ token_text pn) ++ "__"))
          /\ invoke t2 "GCC_IS_PART_DEFINED" [[pn]]
             = Expanded (defined_symbol (("__AVR32_" ++ token_text pn) ++ "__"))
          /\ ("__AVR_" ++ token_text pn) ++ "__" <> ("__AVR32_" ++ token_text pn) ++ "__")
       /\ (active e1 IAR = true -> active e2 IAR = true ->
             invoke t1 "IAR_IS_PART_DEFINED" [[pn]]
             = Expanded (defined_symbol (("__AT" ++ token_text pn) ++ "__"))
             /\ invoke t2 "IAR_IS_PART_DEFINED" [[pn]]
                = Expanded (defined_symbol (("__AT32" ++ token_text pn) ++ "__"))
             /\ ("__AT" ++ token_text pn) ++ "__" <> ("__AT32" ++ token_text pn) ++ "__").
Proof.
  destruct (part_query_definition e1 Hfirst1 Hcommon1) as (t1 & Ht1 & Hg1 & _ & Hi1 & _).
  destruct (part_query_definition e2 Hfirst2 Hcommon2) as (t2 & Ht2 & _ & Hg2 & _ & Hi2).
  exists t1, t2. split; [exact Ht1|]. split; [exact Ht2|].
  intros pn Hpn. split; intros Ha1 Ha2; split_and!.
  - rewrite (invoke_lookup _ _ _ _ (Hg1 Ha1 Harch1)). apply expand_part_query; [discriminate | exact Hpn].
  - rewrite (invoke_lookup _ _ _ _ (Hg2 Ha2 Harch2 Huc3)). apply expand_part_query; [discriminate | exact Hpn].
  - apply avr_and_avr32_differ.
  - rewrite (invoke_lookup _ _ _ _ (Hi1 Ha1 Harch1)). apply expand_part_query; [discriminate | exact Hpn].
  - rewrite (invoke_lookup _ _ _ _ (Hi2 Ha2 Harch2 Huc3)). apply expand_part_query; [discriminate | exact Hpn].
  - apply at_and_at32_differ.
Qed.

Lemma part_query_conventions_witness :
  arch_avr_or_xmega (iar_env 2) = true
  /\ arch_avr_or_xmega (iar_env 1) = false /\ arch_uc3 (iar_env 1) = true
  /\ exists t1 t2, preprocess (iar_env 2) = Done t1 /\ preprocess (iar_env 1) = Done t2
       /\ invoke t1 "IAR_IS_PART_DEFINED" [[PPNum "32UC3A0512"]]
          = Expanded (defined_symbol "__AT32UC3A0512__")
       /\ invoke t2 "IAR_IS_PART_DEFINED" [[PPNum "32UC3A0512"]]
          = Expanded (defined_symbol "__AT3232UC3A0512__").
Proof.
  split_and!; try reflexivity.
  destruct (part_query_conventions (iar_env 2) (iar_env 1)) as (t1 & t2 & Ht1 & Ht2 & Hq);
    try reflexivity.
  exists t1, t2. split; [exact Ht1|]. split; [exact Ht2|].
  destruct (Hq (PPNum "32UC3A0512") eq_refl) as [_ Hiar].
  destruct Hiar as (H1 & H2 & _); try reflexivity.
  split; [exact H1 | exact H2].
Defined.

(** ** The constant-fold query (lines 87 and 108) *)

Section ConstantFoldQuery.

(** The compiler's [__builtin_constant_p]: it belongs to GCC, not to this
    file, and all that is used of it is that it answers true on a literal. *)
Variable builtin_constant_p : list token -> bool.
Hypothesis literal_is_constant :
  forall lit, is_literal lit = true -> builtin_constant_p [lit] = true.

(** C4. With the GCC family active, the query applied to a literal expands
    to [__builtin_constant_p(literal)], which is true; under the fallback,
    the query expands to [0] whatever its argument, which is false. *)
Theorem constant_fold_query (e : build_env)
    (Hfirst : first_inclusion e) (Hcommon : through_common e) :
  exists t, preprocess e = Done t
  /\ (active e GCC = true ->
        forall lit, is_literal lit = true ->
          invoke t "GCC_IS_COMPILE_CONST" [[lit]]
          = Expanded [Ident "__builtin_constant_p"; Punct "("; lit; Punct ")"]
          /\ query_value builtin_constant_p
               [Ident "__builtin_constant_p"; Punct "("; lit; Punct ")"]
             = Some true)
  /\ (active e Fallback = true ->
        forall argument : list token,
          invoke t "GCC_IS_COMPILE_CONST" [argument] = Expanded [PPNum "0"]
          /\ query_value builtin_constant_p [PPNum "0"] = Some false).
Proof.
  read_file e Hfirst Hcommon;
    (eexists; split; [reflexivity|]); split;
    intros Hactive; try discriminate Hactive.
  all: try (intros argument; split; reflexivity).
  all: intros lit Hlit; split;
         [ destruct lit; try discriminate Hlit; reflexivity
         | cbn; rewrite (literal_is_constant lit Hlit); reflexivity ].
Qed.

End ConstantFoldQuery.

Lemma constant_fold_query_witness :
  (forall lit, is_literal lit = true -> literals_only [lit] = true)
  /\ (exists t, preprocess (gcc_env 1) = Done t
        /\ invoke t "GCC_IS_COMPILE_CONST" [[PPNum "42"]]
           = Expanded [Ident "__builtin_constant_p"; Punct "("; PPNum "42"; Punct ")"]
        /\ query_value literals_only
             [Ident "__builtin_constant_p"; Punct "("; PPNum "42"; Punct ")"]
           = Some true)
  /\ (exists t, preprocess unknown_compiler_env = Done t
        /\ invoke t "GCC_IS_COMPILE_CONST" [[PPNum "42"]] = Expanded [PPNum "0"]
        /\ query_value literals_only [PPNum "0"] = Some false).
Proof.
  assert (forall lit, is_literal lit = true -> literals_only [lit] = true) as Hlit.
  { intros lit H. exact H. }
  split; [exact Hlit|]. split.
  - destruct (constant_fold_query literals_only Hlit (gcc_env 1)) as (t & Ht & Hgcc & _);
      try reflexivity.
    exists t. split; [exact Ht|]. apply Hgcc; reflexivity.
  - destruct (constant_fold_query literals_only Hlit unknown_compiler_env)
      as (t & Ht & _ & Hfb); try reflexivity.
    exists t. split; [exact Ht|]. apply Hfb. reflexivity.
Defined.

(** ** Status flags and the memory barrier (lines 79, 99, 100, 107, 120, 136
    and 137)

    What these primitives do to the status register, and to the order of
    memory accesses, is the compiler's and the processor's; the file only
    hands the argument over to the intrinsic of the active family. *)

Lemma status_flag_forwarding (e : build_env) :
  first_inclusion e -> through_common e ->
  exists t, preprocess e = Done t
  /\ (active e GCC = true -> forall arg, source_token arg = true ->
        invoke t "GCC_CLEAR_STATUS_FLAG" [[arg]]
        = Expanded [Ident "__builtin_csrf"; Punct "("; arg; Punct ")"]
        /\ invoke t "GCC_SET_STATUS_FLAG" [[arg]]
           = Expanded [Ident "__builtin_ssrf"; Punct "("; arg; Punct ")"])
  /\ (active e IAR = true -> forall arg, source_token arg = true ->
        invoke t "IAR_CLEAR_STATUS_FLAG" [[arg]]
        = Expanded [Ident "__clear_status_flag"; Punct "("; arg; Punct ")"]
        /\ invoke t "IAR_SET_STATUS_FLAG" [[arg]]
           = Expanded [Ident "__set_status_flag"; Punct "("; arg; Punct ")"]).
Proof.
  intros Hfirst Hcommon.
  read_file e Hfirst Hcommon;
    (eexists; split; [reflexivity|]); split;
    intros Hactive; try discriminate Hactive;
    intros [] Harg; try discriminate Harg; split; reflexivity.
Qed.

Lemma memory_barrier_expansion (e : build_env) :
  first_inclusion e -> through_common e ->
  exists t, preprocess e = Done t
  /\ (active e GCC = true ->
        invoke t "GCC_MEMORY_BARRIER" [[]] = Expanded body_GCC_MEMORY_BARRIER)
  /\ (active e IAR = true ->
        invoke t "IAR_MEMORY_BARRIER" [[]] = Expanded body_IAR_MEMORY_BARRIER)
  /\ (active e Fallback = true ->
        invoke t "GCC_MEMORY_BARRIER" [[]] = Expanded []
        /\ t !! "IAR_MEMORY_BARRIER" = None).
Proof.
  intros Hfirst Hcommon.
  read_file e Hfirst Hcommon;
    (eexists; split; [reflexivity|]); split_and!;
    intros Hactive; try discriminate Hactive; try split; reflexivity.
Qed.

(** * Further properties of the file *)

Lemma every_entry_lookup (test : string -> macro -> bool) (t : macro_table) :
  every_entry test t = true ->
  forall name m, t !! name = Some m -> test name m = true.
Proof.
  unfold every_entry. intros Hall name m Hm.
  rewrite forallb_forall in Hall.
  apply (Hall (name, m)). apply list_elem_of_In, elem_of_map_to_list, Hm.
Qed.

Lemma defined_after (e : build_env) (t : macro_table) (name : string) :
  is_Some (t !! name) -> defined (env_after e t) name = true.
Proof.
  intros [m Hm]. unfold defined, env_after. apply bool_decide_eq_true_2.
  rewrite lookup_union, lookup_fmap, Hm. destruct (e !! name); simpl; eauto.
Qed.

(** ** The include guard (lines 54, 55 and 151) *)

(** X1. A first reading through Common.h defines the include guard as an
    object-like macro without replacement list; with the guard defined, a
    second reading of the file, whatever the table has become, changes
    nothing and raises no error, even where [__INCLUDE_FROM_COMMON_H] has
    been undefined in between. *)
Theorem reinclusion_is_silent (e : build_env)
    (Hfirst : first_inclusion e) (Hcommon : through_common e) :
  exists t, preprocess e = Done t
  /\ t !! include_guard = Some (ObjectLike [])
  /\ CompilerSpecific_h (env_after e t) t = Done t
  /\ CompilerSpecific_h (delete "__INCLUDE_FROM_COMMON_H" (env_after e t)) t = Done t.
Proof.
  assert (exists t, preprocess e = Done t /\ t !! include_guard = Some (ObjectLike []))
    as (t & Ht & Hguard).
  { read_file e Hfirst Hcommon; (eexists; split; reflexivity). }
  exists t. split; [exact Ht|]. split; [exact Hguard|].
  assert (defined (env_after e t) include_guard = true) as Hdef.
  { apply defined_after. rewrite Hguard. eauto. }
  split.
  - unfold CompilerSpecific_h. fold include_guard. rewrite Hdef. reflexivity.
  - unfold CompilerSpecific_h. fold include_guard.
    replace (defined (delete "__INCLUDE_FROM_COMMON_H" (env_after e t)) include_guard)
      with true; [reflexivity|].
    symmetry. unfold defined in *. apply bool_decide_eq_true_2.
    apply bool_decide_eq_true_1 in Hdef.
    rewrite lookup_delete_ne; [exact Hdef | discriminate].
Qed.

Lemma reinclusion_is_silent_witness :
  first_inclusion (gcc_env 1) /\ through_common (gcc_env 1)
  /\ exists t, preprocess (gcc_env 1) = Done t
       /\ CompilerSpecific_h (env_after (gcc_env 1) t) t = Done t.
Proof.
  split; [reflexivity|]. split; [reflexivity|].
  destruct (reinclusion_is_silent (gcc_env 1)) as (t & Ht & _ & Hagain & _);
    try reflexivity.
  exists t. split; [exact Ht | exact Hagain].
Defined.

(** ** The names the file defines *)

(** X2. Every macro the file defines has a name that starts with [GCC_], with
    [IAR_] or with two underscores; when the file is read for its
    documentation the include guard is the only one of the last kind, the
    facade and the pragma helper being left out (lines 102, 128 and 139). *)
Theorem defined_names_are_owned (e : build_env)
    (Hfirst : first_inclusion e) (Hcommon : through_common e) :
  exists t, preprocess e = Done t
  /\ (forall name, is_Some (t !! name) -> owned_name name = true)
  /\ (defined e "__DOXYGEN__" = true ->
        forall name, is_Some (t !! name) -> String.prefix "__" name = true ->
          name = include_guard).
Proof.
  read_file e Hfirst Hcommon; (eexists; split; [reflexivity|]); split.
  all: try (intros Hdox; discriminate Hdox).
  all: try (intros name [m Hm];
            apply (every_entry_lookup (fun n _ => owned_name n)) in Hm;
            [ exact Hm | vm_compute; reflexivity ]).
  all: intros _ name [m Hm] Hprefix;
    apply (every_entry_lookup
      (fun n _ => negb (String.prefix "__" n) || bool_decide (n = include_guard)))
      in Hm; [ | vm_compute; reflexivity ];
    cbv beta in Hm; rewrite Hprefix in Hm;
    exact (bool_decide_eq_true_1 _ Hm).
Qed.

Lemma defined_names_are_owned_witness :
  first_inclusion doxygen_env /\ through_common doxygen_env
  /\ defined doxygen_env "__DOXYGEN__" = true
  /\ exists t, preprocess doxygen_env = Done t
       /\ (forall name, is_Some (t !! name) -> owned_name name = true)
       /\ (forall name, is_Some (t !! name) -> String.prefix "__" name = true ->
             name = include_guard).
Proof.
  split; [reflexivity|]. split; [reflexivity|]. split; [reflexivity|].
  destruct (defined_names_are_owned doxygen_env) as (t & Ht & Howned & Hdox);
    try reflexivity.
  exists t. split; [exact Ht|]. split; [exact Howned|]. apply Hdox. reflexivity.
Defined.

(** ** What is left without a recognised compiler (lines 106 to 114 and
    143 to 148) *)

Lemma expand_stub (name : string) (m : macro) (args : list (list token))
    (ts : list token) :
  stub_like m = true -> expand name m args = Expanded ts ->
  ts = [] \/ ts = [PPNum "0"].
Proof.
  destruct m as [body|params variadic body]; [discriminate|].
  unfold stub_like, expand. intros Hstub.
  destruct (bind_arguments name params variadic args) as [b|why]; [|discriminate].
  apply orb_true_iff in Hstub as [Hbody|Hbody];
    apply bool_decide_eq_true_1 in Hbody; subst body; simpl.
  - intros [= <-]. left. reflexivity.
  - intros [= <-]. right. reflexivity.
Qed.

(** X3. Under the fallback no macro of the file leaves anything to the compiler
    but the constant 0 of the two queries: whatever macro is invoked, with
    whatever arguments, an accepted invocation expands to no token or to
    [0].  (The include guard is no function-like macro and is left aside.) *)
Theorem fallback_leaves_nothing (e : build_env)
    (Hfirst : first_inclusion e) (Hcommon : through_common e)
    (Hfallback : active e Fallback = true) :
  exists t, preprocess e = Done t
  /\ forall name args ts,
       name <> include_guard -> invoke t name args = Expanded ts ->
       ts = [] \/ ts = [PPNum "0"].
Proof.
  read_file e Hfirst Hcommon; (eexists; split; [reflexivity|]);
    intros name args ts Hname; unfold invoke;
    match goal with |- context [?t !! name] => destruct (t !! name) as [m|] eqn:Hm end;
    try discriminate;
    apply (every_entry_lookup
             (fun n m => bool_decide (n = include_guard) || stub_like m)) in Hm;
    [ | vm_compute; reflexivity | | vm_compute; reflexivity
      | | vm_compute; reflexivity | | vm_compute; reflexivity ];
    cbv beta in Hm; rewrite (bool_decide_eq_false_2 _ Hname) in Hm;
    apply expand_stub; exact Hm.
Qed.

Lemma fallback_leaves_nothing_witness :
  first_inclusion unknown_compiler_env /\ through_common unknown_compiler_env
  /\ active unknown_compiler_env Fallback = true
  /\ exists t, preprocess unknown_compiler_env = Done t
       /\ forall ts,
            invoke t "GCC_ISR" [[Ident "USB_GEN_vect"]; [Ident "ISR_BLOCK"]]
            = Expanded ts -> ts = [] \/ ts = [PPNum "0"].
Proof.
  split; [reflexivity|]. split; [reflexivity|]. split; [reflexivity|].
  destruct (fallback_leaves_nothing unknown_compiler_env) as (t & Ht & Hall);
    try reflexivity.
  exists t. split; [exact Ht|]. intros ts. apply Hall. discriminate.
Defined.

(** ** The memory barrier (lines 79, 107 and 120) *)

(** X4. [GCC_MEMORY_BARRIER] is defined in every build, with no parameter.
    [IAR_MEMORY_BARRIER] has no stub: it is defined exactly when the IAR
    branch is taken, and an invocation finds no macro otherwise. *)
Theorem barrier_definitions (e : build_env)
    (Hfirst : first_inclusion e) (Hcommon : through_common e) :
  exists t, preprocess e = Done t
  /\ (exists body, t !! "GCC_MEMORY_BARRIER" = Some (FunctionLike [] false body))
  /\ defines t "IAR_MEMORY_BARRIER" = active e IAR
  /\ (active e IAR = false ->
        forall args, invoke t "IAR_MEMORY_BARRIER" args
                     = Rejected (Undefined_macro "IAR_MEMORY_BARRIER"))
  /\ (active e IAR = true ->
        invoke t "IAR_MEMORY_BARRIER" [[]] = Expanded body_IAR_MEMORY_BARRIER).
Proof.
  read_file e Hfirst Hcommon; (eexists; split; [reflexivity|]);
    (split; [eexists; reflexivity|]); (split; [reflexivity|]);
    split; intros Hactive; first [ discriminate Hactive | reflexivity | intros args; reflexivity ].
Qed.

Lemma barrier_definitions_witness :
  first_inclusion (gcc_env 1) /\ through_common (gcc_env 1)
  /\ exists t, preprocess (gcc_env 1) = Done t
       /\ defines t "GCC_MEMORY_BARRIER" = true
       /\ invoke t "IAR_MEMORY_BARRIER" [[]]
          = Rejected (Undefined_macro "IAR_MEMORY_BARRIER").
Proof.
  split; [reflexivity|]. split; [reflexivity|].
  destruct (barrier_definitions (gcc_env 1)) as (t & Ht & [body Hgcc] & _ & Hno & _);
    try reflexivity.
  exists t. split; [exact Ht|]. split.
  - unfold defines. rewrite Hgcc. reflexivity.
  - apply Hno. reflexivity.
Defined.

(** ** Interrupt handlers under another compiler (lines 110 and 144) *)

Lemma expand_variadic_stub (name param : string) (first : list token)
    (rest : list (list token)) :
  expand name (FunctionLike [param] true []) (first :: rest) = Expanded [].
Proof.
  unfold expand, bind_arguments. simpl.
  rewrite andb_false_r. reflexivity.
Qed.

(** X5. Where a family is not active, its ISR macro takes the handler's name
    and any further arguments and leaves nothing.  So the three-argument
    form the IAR family asks for is accepted in every build: it expands to
    the handler's head under IAR and to nothing elsewhere, and the
    one-argument form the IAR family rejects is accepted elsewhere. *)
Theorem isr_stubs_accept (e : build_env)
    (Hfirst : first_inclusion e) (Hcommon : through_common e) :
  exists t, preprocess e = Done t
  /\ (active e GCC = false ->
        forall name rest, invoke t "GCC_ISR" (name :: rest) = Expanded [])
  /\ (active e IAR = false ->
        forall name rest, invoke t "IAR_ISR" (name :: rest) = Expanded [])
  /\ (forall name group level,
        source_token group = true -> source_token level = true ->
        invoke t "IAR_ISR" [[Ident name]; [group]; [level]]
        = Expanded (if active e IAR then iar_handler name group level else [])).
Proof.
  read_file e Hfirst Hcommon; (eexists; split; [reflexivity|]);
    (split_and!;
     [ intros Hactive; first [ discriminate Hactive | intros name rest; apply expand_variadic_stub ]
     | intros Hactive; first [ discriminate Hactive | intros name rest; apply expand_variadic_stub ]
     | intros name [] [] Hgroup Hlevel; try discriminate; reflexivity ]).
Qed.

Lemma isr_stubs_accept_witness :
  first_inclusion (gcc_env 1) /\ through_common (gcc_env 1)
  /\ exists t, preprocess (gcc_env 1) = Done t
       /\ invoke t "IAR_ISR" [[Ident "USB_GEN_vect"]] = Expanded []
       /\ invoke t "IAR_ISR" [[Ident "USB_GEN_vect"]; [Ident "AVR32_USBB_IRQ_GROUP"];
                              [Ident "AVR32_INTC_INT0"]] = Expanded [].
Proof.
  split; [reflexivity|]. split; [reflexivity|].
  destruct (isr_stubs_accept (gcc_env 1)) as (t & Ht & _ & Hiar & Hthree);
    try reflexivity.
  exists t. split; [exact Ht|]. split.
  - apply Hiar. reflexivity.
  - apply (Hthree "USB_GEN_vect" (Ident "AVR32_USBB_IRQ_GROUP") (Ident "AVR32_INTC_INT0"));
      reflexivity.
Defined.

(** ** What depends on the compiler and on the architecture *)

(** Case analysis on the conditions of a second build environment. *)
Ltac split_conditions_again e :=
  destruct (defined e "__GNUC__") eqn:?;
  destruct (defined e "__DOXYGEN__") eqn:?;
  destruct (defined e "__ICCAVR32__") eqn:?;
  destruct (arch_avr_or_xmega e) eqn:?;
  destruct (arch_uc3 e) eqn:?;
  simpl.

Lemma tables_agree_outside (t1 t2 : macro_table) (skipped : string -> bool) :
  every_entry (fun n m => skipped n || bool_decide (t2 !! n = Some m)) t1 = true ->
  every_entry (fun n m => skipped n || bool_decide (t1 !! n = Some m)) t2 = true ->
  forall name, skipped name = false -> t1 !! name = t2 !! name.
Proof.
  intros H12 H21 name Hname.
  destruct (t1 !! name) as [m1|] eqn:Hm1.
  - apply (every_entry_lookup _ _ H12) in Hm1. cbv beta in Hm1.
    rewrite Hname in Hm1. symmetry. exact (bool_decide_eq_true_1 _ Hm1).
  - destruct (t2 !! name) as [m2|] eqn:Hm2; [|reflexivity].
    apply (every_entry_lookup _ _ H21) in Hm2. cbv beta in Hm2.
    rewrite Hname in Hm2. apply bool_decide_eq_true_1 in Hm2. congruence.
Qed.

(** X6. [ARCH] reaches the two part queries only: two builds that announce the
    same compiler, whatever their architectures, define every other macro
    alike (the register and flag macros included). *)
Theorem architecture_reaches_part_query_only (e1 e2 : build_env)
    (Hfirst1 : first_inclusion e1) (Hcommon1 : through_common e1)
    (Hfirst2 : first_inclusion e2) (Hcommon2 : through_common e2)
    (Hgnuc : defined e1 "__GNUC__" = defined e2 "__GNUC__")
    (Hicc : defined e1 "__ICCAVR32__" = defined e2 "__ICCAVR32__")
    (Hdoxygen : defined e1 "__DOXYGEN__" = defined e2 "__DOXYGEN__") :
  exists t1 t2, preprocess e1 = Done t1 /\ preprocess e2 = Done t2
  /\ forall name,
       name <> "GCC_IS_PART_DEFINED" -> name <> "IAR_IS_PART_DEFINED" ->
       t1 !! name = t2 !! name.
Proof.
  rewrite (preprocess_body e1 Hfirst1 Hcommon1), (preprocess_body e2 Hfirst2 Hcommon2).
  unfold gcc_section, iar_section, gcc_branch, iar_branch.
  rewrite Hgnuc, Hicc, Hdoxygen.
  destruct (arch_avr_or_xmega e1), (arch_uc3 e1);
    split_conditions_again e2;
    (eexists; eexists; split; [reflexivity|]; split; [reflexivity|]);
    intros name Hgcc Hiar;
    (apply (tables_agree_outside _ _
              (fun n => bool_decide (n = "GCC_IS_PART_DEFINED")
                        || bool_decide (n = "IAR_IS_PART_DEFINED")));
     [ vm_compute; reflexivity | vm_compute; reflexivity | ];
     rewrite (bool_decide_eq_false_2 _ Hgcc), (bool_decide_eq_false_2 _ Hiar);
     reflexivity).
Qed.

Lemma architecture_reaches_part_query_only_witness :
  exists t1 t2, preprocess (gcc_env 0) = Done t1 /\ preprocess (gcc_env 1) = Done t2
  /\ t1 !! "GCC_READ_SYS_REGISTER" = t2 !! "GCC_READ_SYS_REGISTER".
Proof.
  destruct (architecture_reaches_part_query_only (gcc_env 0) (gcc_env 1))
    as (t1 & t2 & Ht1 & Ht2 & Hsame); try reflexivity.
  exists t1, t2. split; [exact Ht1|]. split; [exact Ht2|].
  apply Hsame; discriminate.
Defined.

(** Every build gives a macro the parameters that the build with both
    compilers gives it, [IAR_ISR] apart. *)
Lemma parameters_as_reference (e : build_env) :
  first_inclusion e -> through_common e ->
  exists t, preprocess e = Done t
  /\ (forall name m, t !! name = Some m -> name <> "IAR_ISR" ->
        exists m0, reference_table !! name = Some m0 /\ signature m = signature m0)
  /\ (exists m, t !! "IAR_ISR" = Some m
        /\ signature m = Some (if active e IAR then (["Name"; "Group"; "Level"], false)
                               else (["Name"], true))).
Proof.
  intros Hfirst Hcommon.
  read_file e Hfirst Hcommon; (eexists; split; [reflexivity|]);
    (split; [ | eexists; split; reflexivity ]);
    intros name m Hm Hname;
    (apply (every_entry_lookup
              (fun n m => bool_decide (n = "IAR_ISR")
                          || match reference_table !! n with
                             | Some m0 => bool_decide (signature m = signature m0)
                             | None => false
                             end)) in Hm;
     [ | vm_compute; reflexivity ]);
    cbv beta in Hm; rewrite (bool_decide_eq_false_2 _ Hname) in Hm;
    (destruct (reference_table !! name) as [m0|]; [ | discriminate Hm ]);
    exists m0; (split; [ reflexivity | exact (bool_decide_eq_true_1 _ Hm) ]).
Qed.

(** X7. Whichever branch defines it, a macro keeps its parameter list: two
    builds give every name they both define the same parameters, with the
    one exception of [IAR_ISR], which has the three parameters Name, Group
    and Level under IAR and the parameter Name followed by [...] elsewhere. *)
Theorem parameters_do_not_depend_on_compiler (e1 e2 : build_env)
    (Hfirst1 : first_inclusion e1) (Hcommon1 : through_common e1)
    (Hfirst2 : first_inclusion e2) (Hcommon2 : through_common e2) :
  exists t1 t2, preprocess e1 = Done t1 /\ preprocess e2 = Done t2
  /\ (forall name m1 m2,
        t1 !! name = Some m1 -> t2 !! name = Some m2 -> name <> "IAR_ISR" ->
        signature m1 = signature m2)
  /\ (exists m1, t1 !! "IAR_ISR" = Some m1
        /\ signature m1 = Some (if active e1 IAR then (["Name"; "Group"; "Level"], false)
                                else (["Name"], true))).
Proof.
  destruct (parameters_as_reference e1 Hfirst1 Hcommon1) as (t1 & Ht1 & Href1 & Hisr).
  destruct (parameters_as_reference e2 Hfirst2 Hcommon2) as (t2 & Ht2 & Href2 & _).
  exists t1, t2. split; [exact Ht1|]. split; [exact Ht2|]. split; [|exact Hisr].
  intros name m1 m2 Hm1 Hm2 Hname.
  destruct (Href1 name m1 Hm1 Hname) as (m0 & Hm0 & Hs1).
  destruct (Href2 name m2 Hm2 Hname) as (m0' & Hm0' & Hs2).
  congruence.
Qed.

Lemma parameters_do_not_depend_on_compiler_witness :
  exists t1 t2, preprocess (gcc_env 1) = Done t1 /\ preprocess (iar_env 1) = Done t2
  /\ (forall m1 m2, t1 !! "GCC_ISR" = Some m1 -> t2 !! "GCC_ISR" = Some m2 ->
        signature m1 = signature m2).
Proof.
  destruct (parameters_do_not_depend_on_compiler (gcc_env 1) (iar_env 1))
    as (t1 & t2 & Ht1 & Ht2 & Hsame & _); try reflexivity.
  exists t1, t2. split; [exact Ht1|]. split; [exact Ht2|].
  intros m1 m2 H1 H2. apply (Hsame "GCC_ISR" m1 m2 H1 H2). discriminate.
Defined.

(** ** Expansions without [#] and [##] *)

Lemma paste_from_plain (ts : list token) (cur : token) :
  plain ts = true -> paste_from cur ts = Some (cur :: ts).
Proof.
  revert cur. induction ts as [|t ts IH]; intros cur Hplain; [reflexivity|].
  unfold plain in *. simpl in Hplain. apply andb_true_iff in Hplain as [Ht Hts].
  destruct t; try discriminate Ht; simpl; rewrite (IH _ Hts); reflexivity.
Qed.

Lemma drop_placemarkers_plain (ts : list token) :
  plain ts = true -> drop_placemarkers ts = ts.
Proof.
  induction ts as [|t ts IH]; intros Hplain; [reflexivity|].
  unfold plain in *. simpl in Hplain. apply andb_true_iff in Hplain as [Ht Hts].
  unfold drop_placemarkers in *. rewrite filter_cons, (IH Hts).
  destruct t; try discriminate Ht; reflexivity.
Qed.

Lemma finish_plain (name : string) (ts : list token) :
  plain ts = true -> finish name ts = Expanded ts.
Proof.
  intros Hplain. unfold finish, paste_all.
  destruct ts as [|t ts]; [reflexivity|].
  unfold plain in Hplain. simpl in Hplain.
  apply andb_true_iff in Hplain as [Ht Hts].
  rewrite (paste_from_plain ts t Hts).
  rewrite drop_placemarkers_plain; [reflexivity|].
  unfold plain. simpl. rewrite Ht, Hts. reflexivity.
Qed.

Lemma invoke_plain (t : macro_table) (name : string) (args : list (list token))
    (ts ts' : list token) :
  invoke t name args = finish name ts' -> ts' = ts -> plain ts = true ->
  invoke t name args = Expanded ts.
Proof. intros -> -> Hplain. apply finish_plain, Hplain. Qed.

Ltac show_plain :=
  unfold plain, intrinsic_call, pointer_access_asm, join_commas in *;
  simpl in *;
  repeat match goal with
         | H : _ && _ = true |- _ => apply andb_true_iff in H as [? ?]
         end;
  repeat (rewrite ?forallb_app; simpl;
          repeat match goal with H : _ = true |- _ => rewrite H end);
  reflexivity.

Ltac expand_plain :=
  eapply invoke_plain;
  [ reflexivity
  | unfold intrinsic_call, pointer_access_asm; simpl;
    rewrite <- ?app_assoc; reflexivity
  | show_plain ].

(** ** The pointer hint (lines 73 and 106) *)

(** X8. With the GCC family active, [GCC_FORCE_POINTER_ACCESS(ptr)] expands to
    the empty [asm] statement that names the same pointer expression as its
    output and as its input operand; in any other build it expands to
    nothing. *)
Theorem pointer_hint (e : build_env)
    (Hfirst : first_inclusion e) (Hcommon : through_common e) :
  exists t, preprocess e = Done t
  /\ (active e GCC = true ->
        forall ptr, plain ptr = true ->
          invoke t "GCC_FORCE_POINTER_ACCESS" [ptr] = Expanded (pointer_access_asm ptr))
  /\ (active e GCC = false ->
        forall ptr, invoke t "GCC_FORCE_POINTER_ACCESS" [ptr] = Expanded []).
Proof.
  read_file e Hfirst Hcommon; (eexists; split; [reflexivity|]);
    (split;
     [ intros Hactive;
       first [ discriminate Hactive
             | intros [|p ptr] Hptr; [ reflexivity | expand_plain ] ]
     | intros Hactive;
       first [ discriminate Hactive | intros ptr; reflexivity ] ]).
Qed.

Lemma pointer_hint_witness :
  first_inclusion (gcc_env 1) /\ through_common (gcc_env 1)
  /\ exists t, preprocess (gcc_env 1) = Done t
       /\ invoke t "GCC_FORCE_POINTER_ACCESS" [[Ident "Endpoint"; Punct "->"; Ident "Bank"]]
          = Expanded (pointer_access_asm [Ident "Endpoint"; Punct "->"; Ident "Bank"]).
Proof.
  split; [reflexivity|]. split; [reflexivity|].
  destruct (pointer_hint (gcc_env 1)) as (t & Ht & Hgcc & _); try reflexivity.
  exists t. split; [exact Ht|]. apply Hgcc; reflexivity.
Defined.

(** ** Registers and status flags under a compiler (lines 97 to 100 and
    134 to 137) *)

(** X9. With a compiler family active, the register and flag macros of that
    family hand their arguments (not empty, and made of source tokens) over
    to the compiler's intrinsic, unchanged and in the order given: the
    register before the value. *)
Theorem register_access_forwarding (e : build_env)
    (Hfirst : first_inclusion e) (Hcommon : through_common e) :
  exists t, preprocess e = Done t
  /\ (active e GCC = true ->
        forall reg val, reg <> [] -> val <> [] ->
          plain reg = true -> plain val = true ->
          invoke t "GCC_READ_SYS_REGISTER" [reg]
          = Expanded (intrinsic_call "__builtin_mfsr" [reg])
          /\ invoke t "GCC_WRITE_SYS_REGISTER" [reg; val]
             = Expanded (intrinsic_call "__builtin_mtsr" [reg; val])
          /\ invoke t "GCC_CLEAR_STATUS_FLAG" [val]
             = Expanded (intrinsic_call "__builtin_csrf" [val])
          /\ invoke t "GCC_SET_STATUS_FLAG" [val]
             = Expanded (intrinsic_call "__builtin_ssrf" [val]))
  /\ (active e IAR = true ->
        forall reg val, reg <> [] -> val <> [] ->
          plain reg = true -> plain val = true ->
          invoke t "IAR_READ_SYS_REGISTER" [reg]
          = Expanded (intrinsic_call "__get_system_register" [reg])
          /\ invoke t "IAR_WRITE_SYS_REGISTER" [reg; val]
             = Expanded (intrinsic_call "__set_system_register" [reg; val])
          /\ invoke t "IAR_CLEAR_STATUS_FLAG" [val]
             = Expanded (intrinsic_call "__clear_status_flag" [val])
          /\ invoke t "IAR_SET_STATUS_FLAG" [val]
             = Expanded (intrinsic_call "__set_status_flag" [val])).
Proof.
  read_file e Hfirst Hcommon; (eexists; split; [reflexivity|]);
    (split; intros Hactive;
     first [ discriminate Hactive
           | intros [|r reg] [|v val] Hr Hv Hreg Hval; try congruence;
             split_and!; expand_plain ]).
Qed.

Lemma register_access_forwarding_witness :
  first_inclusion (iar_env 1) /\ through_common (iar_env 1)
  /\ exists t, preprocess (iar_env 1) = Done t
       /\ invoke t "IAR_WRITE_SYS_REGISTER"
            [[Ident "AVR32_COMPARE"]; [Ident "Ticks"; Punct "*"; PPNum "2"]]
          = Expanded [Ident "__set_system_register"; Punct "("; Ident "AVR32_COMPARE";
                      Punct ","; Ident "Ticks"; Punct "*"; PPNum "2"; Punct ")"].
Proof.
  split; [reflexivity|]. split; [reflexivity|].
  destruct (register_access_forwarding (iar_env 1)) as (t & Ht & _ & Hiar);
    try reflexivity.
  exists t. split; [exact Ht|].
  apply (Hiar eq_refl [Ident "AVR32_COMPARE"] [Ident "Ticks"; Punct "*"; PPNum "2"]);
    first [ reflexivity | discriminate ].
Defined.

(** ** Part names and symbols (lines 90, 92, 123 and 125) *)

Lemma length_append (s1 s2 : string) :
  String.length (s1 ++ s2) = (String.length s1 + String.length s2)%nat.
Proof. induction s1 as [|c s1 IH]; simpl; [reflexivity | rewrite IH; reflexivity]. Qed.

Lemma append_cancel_l (p s1 s2 : string) : p ++ s1 = p ++ s2 -> s1 = s2.
Proof.
  induction p as [|c p IH]; simpl; intros H; [exact H|].
  injection H as H. exact (IH H).
Qed.

Lemma append_cancel_r (s1 s2 t : string) : s1 ++ t = s2 ++ t -> s1 = s2.
Proof.
  revert s2. induction s1 as [|c s1 IH]; intros [|d s2] H.
  - reflexivity.
  - apply (f_equal String.length) in H. rewrite !length_append in H. simpl in H. lia.
  - apply (f_equal String.length) in H. rewrite !length_append in H. simpl in H. lia.
  - cbn in H. injection H as -> H. rewrite (IH s2 H). reflexivity.
Qed.

(** The part query of an active family, under a recognised [ARCH], has one
    of the four replacement lists of the file. *)
Lemma part_query_shape (e : build_env) :
  first_inclusion e -> through_common e -> arch_recognised e = true ->
  exists t, preprocess e = Done t
  /\ (active e GCC = true ->
        exists prefix, prefix <> "x"
          /\ t !! "GCC_IS_PART_DEFINED"
             = Some (FunctionLike ["x"] false (body_IS_PART_DEFINED prefix)))
  /\ (active e IAR = true ->
        exists prefix, prefix <> "x"
          /\ t !! "IAR_IS_PART_DEFINED"
             = Some (FunctionLike ["x"] false (body_IS_PART_DEFINED prefix))).
Proof.
  intros Hfirst Hcommon Harch.
  read_file e Hfirst Hcommon; (eexists; split; [reflexivity|]);
    (split; intros Hactive;
     first [ discriminate Hactive
           | eexists; split; [ | reflexivity ]; discriminate ]).
Qed.

Lemma part_query_symbols_equal (name prefix : string) (a b : token) :
  prefix <> "x" -> part_name_token a = true -> part_name_token b = true ->
  expand name (FunctionLike ["x"] false (body_IS_PART_DEFINED prefix)) [[a]]
  = expand name (FunctionLike ["x"] false (body_IS_PART_DEFINED prefix)) [[b]] ->
  token_text a = token_text b.
Proof.
  intros Hprefix Ha Hb.
  rewrite (expand_part_query name prefix a Hprefix Ha).
  rewrite (expand_part_query name prefix b Hprefix Hb).
  intros [= H]. apply append_cancel_r in H. exact (append_cancel_l _ _ _ H).
Qed.

(** X10. In one build with an active family and a recognised [ARCH], the part
    query keeps part names apart: two part names that expand to the same
    symbol are spelt alike. *)
Theorem part_query_injective (e : build_env)
    (Hfirst : first_inclusion e) (Hcommon : through_common e)
    (Harch : arch_recognised e = true) :
  exists t, preprocess e = Done t
  /\ forall a b, part_name_token a = true -> part_name_token b = true ->
       (active e GCC = true ->
          invoke t "GCC_IS_PART_DEFINED" [[a]] = invoke t "GCC_IS_PART_DEFINED" [[b]] ->
          token_text a = token_text b)
       /\ (active e IAR = true ->
             invoke t "IAR_IS_PART_DEFINED" [[a]] = invoke t "IAR_IS_PART_DEFINED" [[b]] ->
             token_text a = token_text b).
Proof.
  destruct (part_query_shape e Hfirst Hcommon Harch) as (t & Ht & Hgcc & Hiar).
  exists t. split; [exact Ht|]. intros a b Ha Hb. split; intros Hactive.
  - destruct (Hgcc Hactive) as (prefix & Hprefix & Hm).
    rewrite !(invoke_lookup _ _ _ _ Hm). apply part_query_symbols_equal; assumption.
  - destruct (Hiar Hactive) as (prefix & Hprefix & Hm).
    rewrite !(invoke_lookup _ _ _ _ Hm). apply part_query_symbols_equal; assumption.
Qed.

Lemma part_query_injective_witness :
  arch_recognised (gcc_env 1) = true
  /\ exists t, preprocess (gcc_env 1) = Done t
       /\ (invoke t "GCC_IS_PART_DEFINED" [[Ident "UC3A0512"]]
           = invoke t "GCC_IS_PART_DEFINED" [[Ident "UC3A0512"]] ->
           token_text (Ident "UC3A0512") = token_text (Ident "UC3A0512")).
Proof.
  split; [reflexivity|].
  destruct (part_query_injective (gcc_env 1)) as (t & Ht & Hinj); try reflexivity.
  exists t. split; [exact Ht|].
  apply (Hinj (Ident "UC3A0512") (Ident "UC3A0512")); reflexivity.
Defined.

(** X11. Under GCC the two conventions never meet, even on different part names:
    no symbol of the [__AVR_] form is a symbol of the [__AVR32_] form. *)
Theorem gcc_conventions_disjoint (e1 e2 : build_env)
    (Hfirst1 : first_inclusion e1) (Hcommon1 : through_common e1)
    (Hfirst2 : first_inclusion e2) (Hcommon2 : through_common e2)
    (Hgcc1 : active e1 GCC = true) (Hgcc2 : active e2 GCC = true)
    (Harch1 : arch_avr_or_xmega e1 = true)
    (Harch2 : arch_avr_or_xmega e2 = false) (Huc3 : arch_uc3 e2 = true) :
  exists t1 t2, preprocess e1 = Done t1 /\ preprocess e2 = Done t2
  /\ forall a b, part_name_token a = true -> part_name_token b = true ->
       invoke t1 "GCC_IS_PART_DEFINED" [[a]] <> invoke t2 "GCC_IS_PART_DEFINED" [[b]].
Proof.
  destruct (part_query_definition e1 Hfirst1 Hcommon1) as (t1 & Ht1 & Hg1 & _).
  destruct (part_query_definition e2 Hfirst2 Hcommon2) as (t2 & Ht2 & _ & Hg2 & _).
  exists t1, t2. split; [exact Ht1|]. split; [exact Ht2|].
  intros a b Ha Hb.
  rewrite (invoke_lookup _ _ _ _ (Hg1 Hgcc1 Harch1)).
  rewrite (invoke_lookup _ _ _ _ (Hg2 Hgcc2 Harch2 Huc3)).
  rewrite (expand_part_query _ _ a) by (discriminate || exact Ha).
  rewrite (expand_part_query _ _ b) by (discriminate || exact Hb).
  simpl. intros H. discriminate H.
Qed.

Lemma gcc_conventions_disjoint_witness :
  exists t1 t2, preprocess (gcc_env 0) = Done t1 /\ preprocess (gcc_env 1) = Done t2
  /\ invoke t1 "GCC_IS_PART_DEFINED" [[PPNum "32_UC3A0512"]]
     <> invoke t2 "GCC_IS_PART_DEFINED" [[Ident "UC3A0512"]].
Proof.
  destruct (gcc_conventions_disjoint (gcc_env 0) (gcc_env 1))
    as (t1 & t2 & Ht1 & Ht2 & Hne); try reflexivity.
  exists t1, t2. split; [exact Ht1|]. split; [exact Ht2|].
  apply Hne; reflexivity.
Defined.

(** X12. Under IAR the two conventions do meet on different part names: the
    [__AT32] convention applied to a name gives the symbol that the [__AT]
    convention gives to that name with 32 put in front. *)
Theorem iar_conventions_overlap (e1 e2 : build_env)
    (Hfirst1 : first_inclusion e1) (Hcommon1 : through_common e1)
    (Hfirst2 : first_inclusion e2) (Hcommon2 : through_common e2)
    (Hiar1 : active e1 IAR = true) (Hiar2 : active e2 IAR = true)
    (Harch1 : arch_avr_or_xmega e1 = true)
    (Harch2 : arch_avr_or_xmega e2 = false) (Huc3 : arch_uc3 e2 = true) :
  exists t1 t2, preprocess e1 = Done t1 /\ preprocess e2 = Done t2
  /\ forall name, ident_chars name = true ->
       invoke t1 "IAR_IS_PART_DEFINED" [[PPNum ("32" ++ name)]]
       = invoke t2 "IAR_IS_PART_DEFINED" [[Ident name]]
       /\ invoke t2 "IAR_IS_PART_DEFINED" [[Ident name]]
          = Expanded (defined_symbol (("__AT32" ++ name) ++ "__")).
Proof.
  destruct (part_query_definition e1 Hfirst1 Hcommon1) as (t1 & Ht1 & _ & _ & Hi1 & _).
  destruct (part_query_definition e2 Hfirst2 Hcommon2) as (t2 & Ht2 & _ & _ & _ & Hi2).
  exists t1, t2. split; [exact Ht1|]. split; [exact Ht2|].
  intros name Hname.
  rewrite (invoke_lookup _ _ _ _ (Hi1 Hiar1 Harch1)).
  rewrite (invoke_lookup _ _ _ _ (Hi2 Hiar2 Harch2 Huc3)).
  rewrite (expand_part_query _ _ (PPNum ("32" ++ name))) by (discriminate || exact Hname).
  rewrite (expand_part_query _ _ (Ident name)) by (discriminate || reflexivity).
  split; reflexivity.
Qed.

Lemma iar_conventions_overlap_witness :
  exists t1 t2, preprocess (iar_env 0) = Done t1 /\ preprocess (iar_env 1) = Done t2
  /\ invoke t1 "IAR_IS_PART_DEFINED" [[PPNum "32UC3A0512"]]
     = invoke t2 "IAR_IS_PART_DEFINED" [[Ident "UC3A0512"]].
Proof.
  destruct (iar_conventions_overlap (iar_env 0) (iar_env 1))
    as (t1 & t2 & Ht1 & Ht2 & Hsame); try reflexivity.
  exists t1, t2. split; [exact Ht1|]. split; [exact Ht2|].
  apply (Hsame "UC3A0512"). reflexivity.
Defined.

(** ** Interrupt handlers with attributes (lines 95 and 129) *)

Lemma plain_join_commas (args : list (list token)) :
  forallb plain args = true -> plain (join_commas args) = true.
Proof.
  induction args as [|a args IH]; [reflexivity|].
  simpl. intros Hall. apply andb_true_iff in Hall as [Ha Hargs].
  destruct args as [|b args]; [exact Ha|].
  unfold plain in *. rewrite forallb_app. simpl in IH |- *.
  rewrite Ha. simpl. apply IH, Hargs.
Qed.

Lemma expand_gcc_isr (macro_name name : string) (attribute : list token)
    (more : list (list token)) :
  attribute <> [] -> plain attribute = true -> forallb plain more = true ->
  expand macro_name (FunctionLike ["Name"] true body_GCC_ISR)
    ([Ident name] :: attribute :: more)
  = Expanded (gcc_handler_with name (join_commas (attribute :: more))).
Proof.
  intros Hne Hplain Hmore.
  assert (plain (join_commas (attribute :: more)) = true) as Hjoin.
  { apply plain_join_commas. simpl. rewrite Hplain, Hmore. reflexivity. }
  assert (join_commas (attribute :: more) <> []) as Hsome.
  { destruct attribute; [congruence|]. destruct more; discriminate. }
  change (expand macro_name (FunctionLike ["Name"] true body_GCC_ISR)
            ([Ident name] :: attribute :: more))
    with (finish macro_name
            (substitute [("Name", [Ident name]);
                         ("__VA_ARGS__", join_commas (attribute :: more))]
               body_GCC_ISR)).
  revert Hjoin Hsome. generalize (join_commas (attribute :: more)).
  intros [|v attributes] Hjoin Hsome; [congruence|].
  change (substitute [("Name", [Ident name]); ("__VA_ARGS__", v :: attributes)]
            body_GCC_ISR)
    with (gcc_handler_with name (v :: attributes)).
  apply finish_plain. show_plain.
Qed.

(** X13. With the GCC family active, [GCC_ISR] with a handler name and one or
    more attributes keeps the attributes, joined by their commas, right
    after the interrupt attribute of the prototype, and names the handler
    in the prototype and in the head of the definition. *)
Theorem gcc_isr_attributes (e : build_env)
    (Hfirst : first_inclusion e) (Hcommon : through_common e)
    (Hgcc : active e GCC = true) :
  exists t, preprocess e = Done t
  /\ forall name attribute more,
       attribute <> [] -> plain attribute = true -> forallb plain more = true ->
       invoke t "GCC_ISR" ([Ident name] :: attribute :: more)
       = Expanded (gcc_handler_with name (join_commas (attribute :: more))).
Proof.
  read_file e Hfirst Hcommon; (eexists; split; [reflexivity|]);
    intros name attribute more Hne Hplain Hmore;
    (rewrite (invoke_lookup _ "GCC_ISR" (FunctionLike ["Name"] true body_GCC_ISR));
     [ apply expand_gcc_isr; assumption | reflexivity ]).
Qed.

Lemma gcc_isr_attributes_witness :
  active (gcc_env 1) GCC = true
  /\ exists t, preprocess (gcc_env 1) = Done t
       /\ invoke t "GCC_ISR" [[Ident "USB_GEN_vect"]; [Ident "ISR_BLOCK"]; [Ident "ISR_NAKED"]]
          = Expanded (gcc_handler_with "USB_GEN_vect"
                        [Ident "ISR_BLOCK"; Punct ","; Ident "ISR_NAKED"]).
Proof.
  split; [reflexivity|].
  destruct (gcc_isr_attributes (gcc_env 1)) as (t & Ht & Hattr); try reflexivity.
  exists t. split; [exact Ht|].
  apply (Hattr "USB_GEN_vect" [Ident "ISR_BLOCK"] [[Ident "ISR_NAKED"]]);
    first [ reflexivity | discriminate ].
Defined.

(** X14. The pragma helper that [IAR_ISR] calls is defined exactly in the IAR
    builds that are not read for documentation; it then accepts every
    invocation and leaves one [_Pragma] operator applied to a single string
    literal. *)
Theorem iar_pragma_helper (e : build_env)
    (Hfirst : first_inclusion e) (Hcommon : through_common e) :
  exists t, preprocess e = Done t
  /\ defines t "__IAR_ISR_PRAGMA"
     = defined e "__ICCAVR32__" && negb (defined e "__DOXYGEN__")
  /\ (defines t "__IAR_ISR_PRAGMA" = true ->
        forall args, exists text,
          invoke t "__IAR_ISR_PRAGMA" args
          = Expanded [Ident "_Pragma"; Punct "("; StrLit text; Punct ")"]).
Proof.
  read_file e Hfirst Hcommon; (eexists; split; [reflexivity|]);
    (split; [reflexivity|]); intros Hdefined;
    first [ discriminate Hdefined
          | intros args; eexists; unfold invoke;
            match goal with
            | |- context [?t !! ?k] =>
                let r := eval vm_compute in (t !! k) in change (t !! k) with r
            end;
            unfold expand, bind_arguments; simpl;
            rewrite andb_false_r; reflexivity ].
Qed.

Lemma iar_pragma_helper_witness :
  first_inclusion (iar_env 1) /\ through_common (iar_env 1)
  /\ exists t, preprocess (iar_env 1) = Done t
       /\ exists text,
            invoke t "__IAR_ISR_PRAGMA"
              [[Ident "handler"; Punct "="; Ident "AVR32_USBB_IRQ_GROUP"]; [PPNum "1"]]
            = Expanded [Ident "_Pragma"; Punct "("; StrLit text; Punct ")"].
Proof.
  split; [reflexivity|]. split; [reflexivity|].
  destruct (iar_pragma_helper (iar_env 1)) as (t & Ht & Hdef & Hany); try reflexivity.
  exists t. split; [exact Ht|]. apply Hany. rewrite Hdef. reflexivity.
Defined.
